(** * FillerFilter: the transcription filler filter of livekit-agents

    A shallow embedding of
    [livekit/agents/voice/extensions/transcription_filler_filter.py]
    and the properties of its decision logic, vocabulary handling,
    environment factory and attach/detach protocol.

    Python [str] values are embedded as [string]; a character is a code
    point below 256, where [str.lower], [str.strip] and [str.split] are
    character-wise and given by the tables below. *)

From Stdlib Require Import Ascii String List ZArith Lia Bool.
From stdpp Require Import base option gmap strings list fin_maps.

Open Scope string_scope.

(* ===================================================================== *)
(** * Python string primitives                                            *)
(* ===================================================================== *)

Module PyStr.

(** [str.isspace] on one code point below 256: TAB, LF, VT, FF, CR,
    the separators 0x1c..0x1f, SPACE, NEL (0x85) and NBSP (0xa0). *)
Definition is_space (c : ascii) : bool :=
  let n := nat_of_ascii c in
  (((9 <=? n) && (n <=? 13)) || ((28 <=? n) && (n <=? 32))
   || (n =? 133) || (n =? 160))%nat.

(** [str.lower] on one code point below 256: A..Z and the Latin-1
    capitals 0xc0..0xde (the multiplication sign 0xd7 excepted) move up
    by 32; every other code point is unchanged. *)
Definition lower_char (c : ascii) : ascii :=
  let n := nat_of_ascii c in
  if (((65 <=? n) && (n <=? 90))
      || ((192 <=? n) && (n <=? 222) && negb (n =? 215)))%nat
  then ascii_of_nat (n + 32) else c.

Fixpoint lower (s : string) : string :=
  match s with
  | EmptyString => EmptyString
  | String c s' => String (lower_char c) (lower s')
  end.

(** [s.lstrip(chars)]: drop the longest prefix of characters in [p]. *)
Fixpoint lstrip_by (p : ascii -> bool) (s : string) : string :=
  match s with
  | EmptyString => EmptyString
  | String c s' => if p c then lstrip_by p s' else s
  end.

(** [s.rstrip(chars)]: drop the longest suffix of characters in [p]. *)
Fixpoint rstrip_by (p : ascii -> bool) (s : string) : string :=
  match s with
  | EmptyString => EmptyString
  | String c s' =>
      match rstrip_by p s' with
      | EmptyString => if p c then EmptyString else String c EmptyString
      | r => String c r
      end
  end.

Definition strip_by (p : ascii -> bool) (s : string) : string :=
  lstrip_by p (rstrip_by p s).

(** [s.strip()] *)
Definition strip (s : string) : string := strip_by is_space s.

(** membership of a character in the argument of [s.strip(chars)] *)
Fixpoint char_in (chars : string) (c : ascii) : bool :=
  match chars with
  | EmptyString => false
  | String d r => Ascii.eqb c d || char_in r c
  end.

(** [s.strip(chars)] *)
Definition strip_chars (chars : string) (s : string) : string :=
  strip_by (char_in chars) s.

(** [s.split()]: the maximal runs of non-whitespace characters. *)
Fixpoint split (s : string) : list string :=
  match s with
  | EmptyString => []
  | String c s' =>
      if is_space c then split s'
      else match s' with
           | EmptyString => [String c EmptyString]
           | String c' _ =>
               if is_space c' then String c EmptyString :: split s'
               else match split s' with
                    | w :: ws => String c w :: ws
                    | [] => [String c EmptyString]
                    end
           end
  end.

(** [s.split(sep)] for a one-character separator: empty pieces are kept
    and the empty string yields one empty piece. *)
Fixpoint split_on (sep : ascii) (s : string) : list string :=
  match s with
  | EmptyString => [EmptyString]
  | String c s' =>
      if Ascii.eqb c sep then EmptyString :: split_on sep s'
      else match split_on sep s' with
           | p :: ps => String c p :: ps
           | [] => [String c EmptyString]
           end
  end.

(** truthiness of a [str]: non-empty *)
Definition truthy (s : string) : bool :=
  match s with EmptyString => false | _ => true end.

(** every character of [s] satisfies [p] *)
Fixpoint all_chars (p : ascii -> bool) (s : string) : bool :=
  match s with
  | EmptyString => true
  | String c s' => p c && all_chars p s'
  end.

(** no character of [s] is whitespace *)
Definition no_space (s : string) : bool :=
  all_chars (fun c => negb (is_space c)) s.

End PyStr.

(* ===================================================================== *)
(** * Effects: exceptions, logging, session events, the host handler      *)
(* ===================================================================== *)

(** The exceptions the embedded code can meet. *)
Inductive exn :=
| AttributeError (name : string)
| ImportError (name : string)
| RuntimeError (what : string)
| TypeError (what : string).

(** The values an attribute of a host object may hold, as far as the
    filter distinguishes them: [None], a [str], or a value of another
    type (an [int] stands for those). *)
Inductive pyval :=
| PyNone
| PyStr (s : string)
| PyInt (z : Z).

(** An attribute of an object: absent, or present with a value. *)
Inductive attr (A : Type) :=
| Missing
| Present (a : A).
Arguments Missing {A}.
Arguments Present {A} a.

(** A transcript event, with the three fields the host handler reads. *)
Record Event := {
  transcript : attr pyval;
  is_final : bool;
  item_id : option string;
}.

(** A callable stored in [_on_input_audio_transcription_completed]:
    a method of the host, or the closure [wrapper] built by
    [attach_to_activity] over the activity and its original handler. *)
Inductive handler :=
| HostMethod (tag : nat)
| Wrapper (activity : nat) (orig : handler).

(** What an invocation does besides returning, in program order. *)
Inductive effect :=
| LogInfo (transcript_text : string)
| LogDebug (e : exn)
| LogException (e : exn)
| SessionEmit (name : string)
| CallOrig (orig : handler) (ev : Event).

(** A computation: the effects performed so far and either the exception
    that ended it or its value. *)
Definition Py (A : Type) : Type := (list effect * (exn + A))%type.

#[global] Instance Py_ret : MRet Py := fun A a => ([], inr a).

#[global] Instance Py_bind : MBind Py := fun A B f m =>
  match m with
  | (t, inl e) => (t, inl e)
  | (t, inr a) => let '(t', r) := f a in ((t ++ t')%list, r)
  end.

#[global] Instance Py_throw : MThrow exn Py := fun A e => ([], inl e).

(** perform one effect *)
Definition tell (ef : effect) : Py unit := ([ef], inr tt).

(** [try: m except Exception as e: h e] *)
Definition try_except {A} (m : Py A) (h : exn -> Py A) : Py A :=
  match m with
  | (t, inl e) => let '(t', r) := h e in ((t ++ t')%list, r)
  | ok => ok
  end.

(** the effects of a computation *)
Definition trace {A} (m : Py A) : list effect := fst m.
(** the outcome of a computation *)
Definition outcome {A} (m : Py A) : exn + A := snd m.

(* ===================================================================== *)
(** * The host objects                                                    *)
(* ===================================================================== *)

(** The session of an activity: its [agent_state] attribute and its
    [emit] attribute. A session may have no [emit]; where it has one,
    a call of it returns ([None]) or raises ([Some e]). *)
Record Session := {
  agent_state : attr pyval;
  emit : attr (option exn);
}.

(** An activity: its identity as an object, its [_session] attribute and
    its transcription handler attribute. *)
Record Activity := {
  obj_id : nat;
  _session : attr (option Session);
  _on_input_audio_transcription_completed : attr handler;
}.

(** [obj.name], raising [AttributeError] when the attribute is absent *)
Definition getattr {A} (a : attr A) (name : string) : Py A :=
  match a with
  | Present v => mret v
  | Missing => mthrow (AttributeError name)
  end.

(** [getattr(obj, name, default)] *)
Definition getattr_default {A} (a : attr A) (d : A) : A :=
  match a with
  | Present v => v
  | Missing => d
  end.

(** truth value of a Python value *)
Definition py_truthy (v : pyval) : bool :=
  match v with
  | PyNone => false
  | PyStr s => PyStr.truthy s
  | PyInt z => negb (z =? 0)%Z
  end.

(** [a or b] *)
Definition py_or (a b : pyval) : pyval := if py_truthy a then a else b.

(** [v == "..."] against a string literal *)
Definition py_eq_str (v : pyval) (lit : string) : bool :=
  match v with
  | PyStr s => String.eqb s lit
  | _ => false
  end.

(** Looking up a [str] method on a value: the string itself when the
    value is a [str], [AttributeError] otherwise. *)
Definition str_method (v : pyval) (name : string) : Py string :=
  match v with
  | PyStr s => mret s
  | _ => mthrow (AttributeError name)
  end.

(** [session.emit(name)]: the attribute is looked up, which raises
    [AttributeError] on a session without [emit], and then called.
    [SessionEmit] stands for the call; without the attribute there is
    none. *)
Definition session_emit (sess : Session) (name : string) : Py unit :=
  how ← getattr (emit sess) "emit";
  tell (SessionEmit name) ;;
  match how with
  | Some e => mthrow e
  | None => mret tt
  end.

(* ===================================================================== *)
(** * class FillerFilter                                                  *)
(* ===================================================================== *)

(** The two ways an invocation of [wrapper] ends: [Suppress] is the bare
    [return] (the original handler is not called), [Forward] is
    [return orig(ev)]. *)
Inductive decision :=
| Forward
| Suppress.

(** The filter object: its word list and, per attached activity (keyed
    by object identity), the handler that was installed before. *)
Record FillerFilter := {
  _ignored_words : list string;
  _orig_handler_map : gmap nat handler;
}.

(** [w.strip().lower()] *)
Definition strip_lower (w : string) : string := PyStr.lower (PyStr.strip w).

(** The comprehension [[w.strip().lower() for w in words if w]]. *)
Definition ingest (words : list string) : list string :=
  map strip_lower (List.filter PyStr.truthy words).

(** The method [_init_], called on an instance: it sets both attributes,
    whatever the instance held before. The class has no [__init__], so
    that a call of the class does not run it. *)
Definition _init_ (ignored_words : option (list string)) : FillerFilter :=
  let ignored_words :=
    match ignored_words with None => [] | Some ws => ws end in
  {| _ignored_words := ingest ignored_words; _orig_handler_map := ∅ |}.

(** The built-in word list of [from_env], as the source concatenates it. *)
Definition DEFAULT_RAW : string :=
  "uh,umm,hmm,err,ah,like,you know,"
  ++ "mm,mhm,mmm,,,,"
  ++ "[noise],[background],[inaudible],"
  ++ "[laugh],[cough],[breath],"
  ++ "<noise>,<silence>,<background>".

(** The default value of the parameter [env_var]. *)
Definition DEFAULT_ENV_VAR : string := "LIVEKIT_IGNORED_WORDS".

(** [[p.strip().lower() for p in raw.split(",") if p.strip()]] *)
Definition parse_parts (raw : string) : list string :=
  map strip_lower
      (List.filter (fun p => PyStr.truthy (PyStr.strip p))
                   (PyStr.split_on "," raw)).

(** An instance of the class as [object] creates it: no attribute is
    set. *)
Inductive Instance :=
| NewInstance.

(** A call of the class, [cls(...)], with at most one argument. The
    class defines neither [__init__] nor [__new__], so [object] answers
    the call: with an argument it raises [TypeError], without one it
    returns an instance without attributes. *)
Definition cls (argument : option (list string)) : exn + Instance :=
  match argument with
  | Some _ => inl (TypeError "FillerFilter() takes no arguments")
  | None => inr NewInstance
  end.

(** [FillerFilter.from_env(env_var)], reading [os.environ]: the parts
    are computed and the class is called with them. *)
Definition from_env (environ : gmap string string) (env_var : string)
  : exn + Instance :=
  let raw := default EmptyString (environ !! env_var) in
  let raw := if negb (PyStr.truthy raw) then DEFAULT_RAW else raw in
  cls (Some (parse_parts raw)).

(** [self.set_ignored_words(words)] *)
Definition set_ignored_words (self : FillerFilter) (words : list string)
  : FillerFilter :=
  {| _ignored_words := ingest words;
     _orig_handler_map := _orig_handler_map self |}.

(** The characters stripped from both ends of a token:
    . , ! ? and the double quote (code 034), then ' ( ) [ ] < > *)
Definition PUNCT : string := ".,!?" ++ String "034"%char "'()[]<>".

(** [t.lower().strip(PUNCT)], applied to every token. *)
Definition token_norm (t : string) : string :=
  PyStr.strip_chars PUNCT (PyStr.lower t).

(** The local function [_norm] of [wrapper]. *)
Definition _norm (s : string) : string :=
  PyStr.strip_chars PUNCT (PyStr.lower (PyStr.strip s)).

(** The project's [split_words], where it can be imported: the words it
    returns for a text, or the exception that the import, the call or
    the use of its result raises. *)
Definition Tokenizer : Type := string -> exn + list string.

(** [..tokenize.basic] cannot be imported. *)
Definition no_split_words : Tokenizer :=
  fun _ => inl (ImportError "tokenize.basic").

(** The first two conjuncts of the outer [if]:
    [getattr(activity, "_session", None) is not None and
     getattr(activity._session, "agent_state", None) == "speaking"]. *)
Definition agent_speaking (activity : Activity) : bool :=
  match getattr_default (_session activity) None with
  | None => false
  | Some sess =>
      py_eq_str (getattr_default (agent_state sess) PyNone) "speaking"
  end.

(** The first three conjuncts of the outer [if], evaluated left to right
    and stopping at the first false one. [None]: the condition is false;
    [Some s]: it holds so far and the transcript is the string [s]. *)
Definition gate (activity : Activity) (transcript_text : pyval)
  : Py (option string) :=
  if agent_speaking activity
  then
    s ← str_method transcript_text "strip";
    if PyStr.truthy (PyStr.strip s) then mret (Some s) else mret None
  else mret None.

(** The tokens of a transcript: the inner [try] with its fallback to
    [str.split]. *)
Definition tokens_of (split_words : Tokenizer) (s : string) : list string :=
  match split_words s with
  | inr ws => map token_norm ws
  | inl _ => map token_norm (PyStr.split s)
  end.

(** [{_norm(w) for w in self._ignored_words}] *)
Definition ignored_set (self : FillerFilter) : gset string :=
  list_to_set (map _norm (_ignored_words self)).

(** [tokens and all(tok in ignored_set for tok in tokens)] *)
Definition all_fillers (self : FillerFilter) (tokens : list string) : bool :=
  match tokens with
  | [] => false
  | _ => forallb (fun tok => bool_decide (tok ∈ ignored_set self)) tokens
  end.

(** The inner [try] around the notification. *)
Definition notify (activity : Activity) : Py unit :=
  try_except
    (sess ← getattr (_session activity) "_session";
     match sess with
     | Some sess => session_emit sess "agent_false_interruption"
     | None => mret tt
     end)
    (fun e => tell (LogDebug e)).

(** The body of the outer [try] of [wrapper]: [true] when it ends in the
    bare [return], [false] when control falls through to [orig(ev)]. *)
Definition wrapper_try (self : FillerFilter) (activity : Activity)
    (split_words : Tokenizer) (ev : Event) : Py bool :=
  t ← getattr (transcript ev) "transcript";
  let transcript_text := py_or t (PyStr EmptyString) in
  g ← gate activity transcript_text;
  match g with
  | None => mret false
  | Some s =>
      match _ignored_words self with
      | [] => mret false
      | _ =>
          if all_fillers self (tokens_of split_words s)
          then tell (LogInfo s) ;; notify activity ;; mret true
          else mret false
      end
  end.

(** The closure [wrapper(ev)] of [attach_to_activity], with the variables
    it captures ([self], [activity], [orig]) and the tokenizer it can
    import as parameters. *)
Definition wrapper (self : FillerFilter) (activity : Activity)
    (split_words : Tokenizer) (orig : handler) (ev : Event) : Py decision :=
  returned ← try_except (wrapper_try self activity split_words ev)
                        (fun e => tell (LogException e) ;; mret false);
  if (returned : bool) then mret Suppress
  else tell (CallOrig orig ev) ;; mret Forward.

(** [self.attach_to_activity(activity)] *)
Definition attach_to_activity (self : FillerFilter) (activity : Activity)
  : exn + (FillerFilter * Activity) :=
  match _orig_handler_map self !! obj_id activity with
  | Some _ => inr (self, activity)
  | None =>
      match _on_input_audio_transcription_completed activity with
      | Missing =>
          inl (AttributeError "_on_input_audio_transcription_completed")
      | Present orig =>
          inr ({| _ignored_words := _ignored_words self;
                  _orig_handler_map :=
                    <[obj_id activity := orig]> (_orig_handler_map self) |},
               {| obj_id := obj_id activity;
                  _session := _session activity;
                  _on_input_audio_transcription_completed :=
                    Present (Wrapper (obj_id activity) orig) |})
      end
  end.

(** [self.detach_from_activity(activity)] *)
Definition detach_from_activity (self : FillerFilter) (activity : Activity)
  : FillerFilter * Activity :=
  match _orig_handler_map self !! obj_id activity with
  | Some orig =>
      ({| _ignored_words := _ignored_words self;
          _orig_handler_map := delete (obj_id activity) (_orig_handler_map self) |},
       {| obj_id := obj_id activity;
          _session := _session activity;
          _on_input_audio_transcription_completed := Present orig |})
  | None => (self, activity)
  end.

(** [activity._on_input_audio_transcription_completed(ev)]: a call of
    whatever handler the activity holds. *)
Definition deliver (self : FillerFilter) (activity : Activity)
    (split_words : Tokenizer) (ev : Event) : Py decision :=
  h ← getattr (_on_input_audio_transcription_completed activity)
              "_on_input_audio_transcription_completed";
  match h with
  | Wrapper _ orig => wrapper self activity split_words orig ev
  | HostMethod _ => tell (CallOrig h ev) ;; mret Forward
  end.

(* ===================================================================== *)
(** * The fixtures of the test files                                      *)
(* ===================================================================== *)

Definition FakeSession (state : string) : Session :=
  {| agent_state := Present (PyStr state); emit := Present None |}.

Definition FakeActivity (session : Session) : Activity :=
  {| obj_id := 1;
     _session := Present (Some session);
     _on_input_audio_transcription_completed := Present (HostMethod 0) |}.

Definition Ev (text : string) : Event :=
  {| transcript := Present (PyStr text); is_final := true; item_id := None |}.

(** A filter that holds the built-in list: an instance on which the
    method [_init_] was called with the parts of [DEFAULT_RAW]. *)
Definition default_filter : FillerFilter :=
  _init_ (Some (parse_parts DEFAULT_RAW)).


(** [session.events] of the test fixture: the names passed to [emit],
    in order. *)
Definition emitted (t : list effect) : list string :=
  flat_map (fun ef => match ef with SessionEmit n => [n] | _ => [] end) t.

(** [activity.forwarded] of the test fixture: the events the original
    handler was called with, in order. *)
Definition forwarded (t : list effect) : list Event :=
  flat_map (fun ef => match ef with CallOrig _ ev => [ev] | _ => [] end) t.

(** The same activity with a session whose [emit] attribute is [how]. *)
Definition with_emit (how : attr (option exn)) (activity : Activity)
  : Activity :=
  {| obj_id := obj_id activity;
     _session :=
       match _session activity with
       | Present (Some sess) =>
           Present (Some {| agent_state := agent_state sess; emit := how |})
       | other => other
       end;
     _on_input_audio_transcription_completed :=
       _on_input_audio_transcription_completed activity |}.

(** The session of the activity has an [emit] attribute. *)
Definition has_emit (activity : Activity) : bool :=
  match _session activity with
  | Present (Some sess) =>
      match emit sess with Present _ => true | Missing => false end
  | _ => false
  end.

(** The same event with another [transcript] attribute. *)
Definition with_transcript (v : attr pyval) (ev : Event) : Event :=
  {| transcript := v; is_final := is_final ev; item_id := item_id ev |}.

(* ===================================================================== *)
(** * tests/run_transcription_filler_filter.py                            *)
(* ===================================================================== *)

(** How the call of a test function ends in the [try] of the script: it
    returns, an [assert] fails, or another exception escapes. *)
Inductive test_result :=
| Passed
| AssertFailed
| Errored (e : exn).

Module run_transcription_filler_filter.

(** What the script prints, one constructor per [print] statement with
    the values it shows, and how it ends. *)
Inductive output :=
| PrintOK (name : string)
| PrintFAIL (name : string)
| PrintERROR (name : string) (e : exn)
| PrintAllPassed.

(** The line printed for a test function, by the way its call ended. *)
Definition line_of (nr : string * test_result) : output :=
  match snd nr with
  | Passed => PrintOK (fst nr)
  | AssertFailed => PrintFAIL (fst nr)
  | Errored e => PrintERROR (fst nr) e
  end.

(** The call of a test function returned. *)
Definition passed (nr : string * test_result) : bool :=
  match snd nr with Passed => true | _ => false end.

(** The [for] loop over the test functions: every function is called,
    one line is printed for it, and [failed] is raised to [True] by the
    two [except] branches. *)
Fixpoint loop (tests : list (string * test_result)) (failed : bool)
  : list output * bool :=
  match tests with
  | [] => ([], failed)
  | (name, r) :: rest =>
      let '(line, failed) :=
        match r with
        | Passed => (PrintOK name, failed)
        | AssertFailed => (PrintFAIL name, true)
        | Errored e => (PrintERROR name e, true)
        end in
      let '(out, failed) := loop rest failed in
      (line :: out, failed)
  end.

(** The script from [failed = False] on: the printed lines and the code
    of [SystemExit], if raised. *)
Definition script (tests : list (string * test_result))
  : list output * option Z :=
  let '(out, failed) := loop tests false in
  if failed then (out, Some 1%Z)
  else ((out ++ [PrintAllPassed])%list, None).

End run_transcription_filler_filter.

(* ===================================================================== *)
(** * tests/run_tests_by_prefix.py                                        *)
(* ===================================================================== *)

Module run_tests_by_prefix.



(** What the runner does, in order: one constructor per [print]
    statement with the values it shows, and [Run] for
    [subprocess.run]. *)
Inductive effect :=
| PrintRule
| PrintRunning (file_name : string)
| PrintCommand (cmd : list string)
| Run (cmd : list string)
| PrintDirNotFound (dir : string)
| PrintAlternate (given alt : string)
| PrintNoFiles (given dir : string)
| PrintSummary (n_files n_failures : nat)
| PrintFailure (file_name : string) (code : Z).










End run_tests_by_prefix.

(* ===================================================================== *)
(** * examples/demo_filler_filter.py                                      *)
(* ===================================================================== *)

Module demo_filler_filter.

(** The three constants of colorama the demo uses, where the package
    can be imported: [Fore.GREEN], [Fore.RED], [Style.RESET_ALL]. *)
Record Colorama := {
  GREEN : string;
  RED : string;
  RESET_ALL : string;
}.

(** [format_state(state)] *)
Definition format_state (colorama : option Colorama) (state : string)
  : string :=
  match colorama with
  | Some c =>
      (if String.eqb state "listening" then GREEN c else RED c)
      ++ state ++ RESET_ALL c
  | None => state
  end.

(** The objects of [main]: the session ([agent_state] and the names in
    [events]), the activity ([forwarded] and its handler attribute) and
    the filter. *)
Record Demo := {
  session_state : string;
  session_events : list string;
  activity_forwarded : list string;
  activity_handler : attr handler;
  filt : FillerFilter;
}.

(** What the demo prints: one constructor per [print] statement, with
    the values it shows. *)
Inductive output :=
| PrintDoc
| PrintAgentState (shown : string)
| PrintForwardedHeader
| PrintForwarded (t : string)
| PrintEventsHeader
| PrintEvent (name : string)
| PrintWordsHeader
| PrintWord (w : string)
| PrintUpdated (ws : list string)
| PrintError (e : exn)
| PrintFinished.

(** The activity as the wrapper sees it: a session that answers
    [agent_state] and whose [emit] returns. *)
Definition activity_view (d : Demo) : Activity :=
  {| obj_id := 1;
     _session := Present (Some (FakeSession (session_state d)));
     _on_input_audio_transcription_completed := activity_handler d |}.

(** [DemoTranscript(text)] *)
Definition DemoTranscript (text : string) : Event :=
  {| transcript := Present (PyStr text); is_final := true; item_id := None |}.

(** [sorted(words)]: insertion into the ascending order of strings. *)
Fixpoint insert_sorted (w : string) (l : list string) : list string :=
  match l with
  | [] => [w]
  | x :: r => if String.leb w x then w :: l else x :: insert_sorted w r
  end.

Definition sorted (l : list string) : list string :=
  fold_right insert_sorted [] l.

(** [text[n:]] *)
Fixpoint slice_from (n : nat) (s : string) : string :=
  match n, s with
  | O, _ => s
  | S n', String _ s' => slice_from n' s'
  | S _, EmptyString => EmptyString
  end.

(** [print_status(session, activity)]: what is printed, and the objects
    with both lists cleared. *)
Definition print_status (colorama : option Colorama) (d : Demo)
  : list output * Demo :=
  (([PrintAgentState (format_state colorama (session_state d))]
    ++ match activity_forwarded d with
       | [] => []
       | ts => PrintForwardedHeader :: map PrintForwarded ts
       end
    ++ match session_events d with
       | [] => []
       | es => PrintEventsHeader :: map PrintEvent es
       end)%list,
   {| session_state := session_state d;
      session_events := [];
      activity_forwarded := [];
      activity_handler := activity_handler d;
      filt := filt d |}).

(** The transcript an event carries, as [DemoActivity] stores it. *)
Definition transcript_text (ev : Event) : option string :=
  match transcript ev with
  | Present (PyStr s) => Some s
  | _ => None
  end.

(** [activity._on_input_audio_transcription_completed(DemoTranscript(text))]
    on the demo objects: the emitted names go to [session.events], the
    transcripts that reach the original handler to
    [activity.forwarded]. *)
Definition call_handler (d : Demo) (text : string) : exn + Demo :=
  let r := deliver (filt d) (activity_view d) no_split_words
                   (DemoTranscript text) in
  match outcome r with
  | inl e => inl e
  | inr _ =>
      inr {| session_state := session_state d;
             session_events := (session_events d ++ emitted (trace r))%list;
             activity_forwarded :=
               (activity_forwarded d
                ++ omap transcript_text (forwarded (trace r)))%list;
             activity_handler := activity_handler d;
             filt := filt d |}
  end.

Definition set_state (state : string) (d : Demo) : Demo :=
  {| session_state := state;
     session_events := session_events d;
     activity_forwarded := activity_forwarded d;
     activity_handler := activity_handler d;
     filt := filt d |}.

Definition set_words (words : list string) (d : Demo) : Demo :=
  {| session_state := session_state d;
     session_events := session_events d;
     activity_forwarded := activity_forwarded d;
     activity_handler := activity_handler d;
     filt := set_ignored_words (filt d) words |}.

(** One turn of the [while True] loop on the line [input] returned: what
    is printed, the objects afterwards, and whether the loop goes on
    ([false] for [break]). *)
Definition step (colorama : option Colorama) (d : Demo) (line : string)
  : list output * Demo * bool :=
  let text := PyStr.strip line in
  if negb (PyStr.truthy text) then ([], d, true)
  else if String.eqb text "quit" then ([], d, false)
  else if String.eqb text "help" then ([PrintDoc], d, true)
  else if String.eqb text "speak" then
    let '(out, d') := print_status colorama (set_state "speaking" d) in
    (out, d', true)
  else if String.eqb text "listen" then
    let '(out, d') := print_status colorama (set_state "listening" d) in
    (out, d', true)
  else if String.eqb text "words" then
    (PrintWordsHeader :: map PrintWord (sorted (_ignored_words (filt d))),
     d, true)
  else if String.prefix "set " text then
    let words := PyStr.split_on "," (PyStr.strip (slice_from 4 text)) in
    let d' := set_words words d in
    ([PrintUpdated (sorted (_ignored_words (filt d')))], d', true)
  else
    match call_handler d text with
    | inl e => ([PrintError e], d, true)
    | inr d' =>
        let '(out, d'') := print_status colorama d' in
        (out, d'', true)
    end.

(** The first turns of the loop, one for each line [input] returned, up
    to the first [quit]: what is printed, the objects after the last of
    these turns, and whether [quit] was among the lines. What the loop
    does once [input] has no line left is not part of it. *)
Fixpoint turns (colorama : option Colorama) (d : Demo) (lines : list string)
  : list output * Demo * bool :=
  match lines with
  | [] => ([], d, false)
  | line :: rest =>
      let '(out, d', continue) := step colorama d line in
      if continue
      then let '(out', d'', quit) := turns colorama d' rest in
           ((out ++ out')%list, d'', quit)
      else (out, d', true)
  end.

(** Nothing is waiting to be shown: both lists are empty. *)
Definition idle (d : Demo) : Prop :=
  activity_forwarded d = [] /\ session_events d = [].

(** The filter is attached to the activity of the demo, with the
    activity's own handler on record. *)
Definition attached (d : Demo) : Prop :=
  activity_handler d = Present (Wrapper 1 (HostMethod 0))
  /\ _orig_handler_map (filt d) = {[ 1 := HostMethod 0 ]}.

(** A printed line that does not report an emitted event. *)
Definition no_event_line (o : output) : Prop :=
  o <> PrintEventsHeader /\ forall n, o <> PrintEvent n.

End demo_filler_filter.

(* ===================================================================== *)
(** * Facts about the string primitives                                   *)
(* ===================================================================== *)

Module PyStrFacts.
Import PyStr.

Ltac by_char c := destruct c as [[] [] [] [] [] [] [] []]; reflexivity.

Lemma is_space_lower_char c : is_space (lower_char c) = is_space c.
Proof. by_char c. Qed.

Lemma lower_char_idem c : lower_char (lower_char c) = lower_char c.
Proof. by_char c. Qed.

Lemma truthy_false s : truthy s = false <-> s = EmptyString.
Proof. destruct s; simpl; split; congruence. Qed.

Lemma truthy_true s : truthy s = true <-> s <> EmptyString.
Proof. destruct s; simpl; split; congruence. Qed.

Lemma lower_idem s : lower (lower s) = lower s.
Proof. induction s as [|c s IH]; simpl; [|rewrite lower_char_idem, IH]; reflexivity. Qed.

Lemma lower_length s : String.length (lower s) = String.length s.
Proof. induction s; simpl; congruence. Qed.

Lemma truthy_lower s : truthy (lower s) = truthy s.
Proof. destruct s; reflexivity. Qed.

Section Strip.
Variable p : ascii -> bool.

Lemma lstrip_empty_iff s :
  lstrip_by p s = EmptyString <-> all_chars p s = true.
Proof.
  induction s as [|c s IH]; simpl; [tauto|].
  destruct (p c); simpl; [exact IH|]. split; discriminate.
Qed.

Lemma rstrip_empty_iff s :
  rstrip_by p s = EmptyString <-> all_chars p s = true.
Proof.
  induction s as [|c s IH]; simpl; [tauto|].
  destruct (rstrip_by p s) eqn:E.
  - assert (all_chars p s = true) as -> by (apply IH; reflexivity).
    destruct (p c); simpl; split; congruence.
  - destruct (all_chars p s).
    + destruct IH as [_ IH]. discriminate (IH eq_refl).
    + rewrite andb_false_r. split; discriminate.
Qed.

Lemma all_chars_rstrip s : all_chars p (rstrip_by p s) = all_chars p s.
Proof.
  destruct (all_chars p s) eqn:Ea.
  - apply rstrip_empty_iff in Ea. rewrite Ea. reflexivity.
  - induction s as [|c s IH]; simpl in *; [discriminate|].
    destruct (rstrip_by p s) eqn:E.
    + apply rstrip_empty_iff in E. rewrite E, andb_true_r in Ea.
      rewrite Ea. simpl. rewrite Ea. reflexivity.
    + simpl in *. destruct (p c); simpl in *; [|reflexivity].
      apply IH. exact Ea.
Qed.

Lemma truthy_strip_by s :
  truthy (strip_by p s) = negb (all_chars p s).
Proof.
  unfold strip_by. destruct (all_chars p s) eqn:Ea; simpl.
  - apply truthy_false. apply lstrip_empty_iff.
    rewrite all_chars_rstrip. exact Ea.
  - apply truthy_true. intros H. apply lstrip_empty_iff in H.
    rewrite all_chars_rstrip in H. congruence.
Qed.

Lemma lstrip_idem s : lstrip_by p (lstrip_by p s) = lstrip_by p s.
Proof.
  induction s as [|c s IH]; simpl; [reflexivity|].
  destruct (p c) eqn:E; [exact IH|]. simpl. rewrite E. reflexivity.
Qed.

Lemma rstrip_idem s : rstrip_by p (rstrip_by p s) = rstrip_by p s.
Proof.
  induction s as [|c s IH]; simpl; [reflexivity|].
  destruct (rstrip_by p s) eqn:E.
  - destruct (p c) eqn:Ec; simpl; [reflexivity|]. rewrite Ec. reflexivity.
  - change (rstrip_by p (String c (String a s0)))
      with (match rstrip_by p (String a s0) with
            | EmptyString => if p c then EmptyString else String c EmptyString
            | r => String c r
            end).
    rewrite IH. reflexivity.
Qed.

Lemma rstrip_lstrip s :
  rstrip_by p (lstrip_by p s) = lstrip_by p (rstrip_by p s).
Proof.
  induction s as [|c s IH]; simpl; [reflexivity|].
  destruct (p c) eqn:Ec.
  - rewrite IH. destruct (rstrip_by p s) eqn:E; simpl; [reflexivity|].
    rewrite Ec. reflexivity.
  - simpl. destruct (rstrip_by p s) eqn:E; simpl; rewrite Ec; reflexivity.
Qed.

Lemma strip_by_idem s : strip_by p (strip_by p s) = strip_by p s.
Proof.
  unfold strip_by.
  rewrite (rstrip_lstrip (rstrip_by p s)), rstrip_idem, lstrip_idem.
  reflexivity.
Qed.

(** stripping never lengthens, and keeps the length only of a string
    it leaves alone *)
Lemma lstrip_length s :
  String.length (lstrip_by p s) <= String.length s
  /\ (String.length (lstrip_by p s) = String.length s -> lstrip_by p s = s).
Proof.
  induction s as [|c s [IH1 IH2]]; simpl; [split; [lia|reflexivity]|].
  destruct (p c); simpl; split; try lia; try reflexivity.
Qed.

Lemma rstrip_length s :
  String.length (rstrip_by p s) <= String.length s
  /\ (String.length (rstrip_by p s) = String.length s -> rstrip_by p s = s).
Proof.
  induction s as [|c s [IH1 IH2]]; simpl; [split; [lia|reflexivity]|].
  destruct (rstrip_by p s) eqn:E.
  - destruct (p c); simpl in *; split; try lia.
    intros H. destruct s; [reflexivity|simpl in H; lia].
  - simpl in *. split; [lia|]. intros H. f_equal. apply IH2. lia.
Qed.

Lemma strip_by_length s :
  String.length (strip_by p s) <= String.length s.
Proof.
  unfold strip_by.
  pose proof (proj1 (lstrip_length (rstrip_by p s))).
  pose proof (proj1 (rstrip_length s)). lia.
Qed.

Lemma strip_by_same_length s :
  String.length (strip_by p s) = String.length s -> strip_by p s = s.
Proof.
  unfold strip_by. intros H.
  destruct (lstrip_length (rstrip_by p s)) as [H1 H2].
  destruct (rstrip_length s) as [H3 H4].
  rewrite H2 by lia. apply H4. lia.
Qed.

(** a string without characters to strip is left alone *)
Lemma strip_by_none s :
  all_chars (fun c => negb (p c)) s = true -> strip_by p s = s.
Proof.
  intros H. unfold strip_by.
  assert (rstrip_by p s = s) as ->.
  { induction s as [|c s IH]; simpl in *; [reflexivity|].
    apply andb_true_iff in H as [Hc Hs]. rewrite (IH Hs).
    destruct s; [|reflexivity].
    destruct (p c); [discriminate|reflexivity]. }
  destruct s as [|c s]; simpl in *; [reflexivity|].
  apply andb_true_iff in H as [Hc _].
  destruct (p c); [discriminate|reflexivity].
Qed.

(** stripping keeps a property that all characters have *)
Lemma all_chars_lstrip_keeps q s :
  all_chars q s = true -> all_chars q (lstrip_by p s) = true.
Proof.
  induction s as [|c s IH]; simpl; [auto|].
  intros H. destruct (p c); [|exact H].
  apply andb_true_iff in H as [_ H]. auto.
Qed.

Lemma all_chars_rstrip_keeps q s :
  all_chars q s = true -> all_chars q (rstrip_by p s) = true.
Proof.
  induction s as [|c s IH]; simpl; [auto|].
  intros H. apply andb_true_iff in H as [Hc H]. specialize (IH H).
  destruct (rstrip_by p s).
  - destruct (p c); simpl; [reflexivity|]. rewrite Hc. reflexivity.
  - simpl in *. rewrite Hc. exact IH.
Qed.

Lemma all_chars_strip_keeps q s :
  all_chars q s = true -> all_chars q (strip_by p s) = true.
Proof.
  intros H. unfold strip_by.
  apply all_chars_lstrip_keeps, all_chars_rstrip_keeps, H.
Qed.

(** [lower] commutes with stripping a class of characters that
    [lower] respects *)
Hypothesis p_lower : forall c, p (lower_char c) = p c.

Lemma lower_lstrip s : lower (lstrip_by p s) = lstrip_by p (lower s).
Proof.
  induction s as [|c s IH]; simpl; [reflexivity|].
  rewrite p_lower. destruct (p c); [exact IH|reflexivity].
Qed.

Lemma lower_rstrip s : lower (rstrip_by p s) = rstrip_by p (lower s).
Proof.
  induction s as [|c s IH]; simpl; [reflexivity|].
  rewrite <- IH, p_lower.
  destruct (rstrip_by p s); simpl; [destruct (p c)|]; reflexivity.
Qed.

Lemma lower_strip_by s : lower (strip_by p s) = strip_by p (lower s).
Proof. unfold strip_by. rewrite lower_lstrip, lower_rstrip. reflexivity. Qed.
End Strip.

Lemma all_chars_lower q s :
  (forall c, q (lower_char c) = q c) ->
  all_chars q (lower s) = all_chars q s.
Proof.
  intros Hq. induction s as [|c s IH]; simpl; [reflexivity|].
  rewrite Hq, IH. reflexivity.
Qed.

Lemma lower_strip s : lower (strip s) = strip (lower s).
Proof. apply lower_strip_by, is_space_lower_char. Qed.

Lemma strip_idem s : strip (strip s) = strip s.
Proof. apply strip_by_idem. Qed.

Lemma truthy_strip s : truthy (strip s) = negb (all_chars is_space s).
Proof. apply truthy_strip_by. Qed.

Lemma strip_no_space s : no_space s = true -> strip s = s.
Proof. apply strip_by_none. Qed.

End PyStrFacts.

Module SplitFacts.
Import PyStr PyStrFacts.

(** every token of [s.split()] is non-empty and free of whitespace *)
Lemma split_tokens s :
  Forall (fun t => no_space t = true /\ t <> EmptyString) (split s).
Proof.
  induction s as [|c s IH]; simpl; [constructor|].
  destruct (is_space c) eqn:Ec; [exact IH|].
  assert (Hc : no_space (String c EmptyString) = true /\
               String c EmptyString <> EmptyString).
  { unfold no_space. simpl. rewrite Ec. split; [reflexivity|discriminate]. }
  destruct s as [|c' s']; [repeat constructor; apply Hc|].
  destruct (is_space c') eqn:Ec'; [constructor; [exact Hc|exact IH]|].
  destruct (split (String c' s')) as [|w ws]; [repeat constructor; apply Hc|].
  inversion IH as [|? ? [Hw _] Hws]; subst. constructor; [|exact Hws].
  split; [|discriminate]. unfold no_space in *. simpl. rewrite Ec, Hw.
  reflexivity.
Qed.

(** [s.split()] is empty exactly for the empty and the whitespace-only
    strings *)
Lemma split_nil_iff s : split s = [] <-> all_chars is_space s = true.
Proof.
  induction s as [|c s IH]; simpl; [tauto|].
  destruct (is_space c); simpl; [exact IH|].
  split; [|discriminate].
  destruct s as [|c' s']; [discriminate|].
  destruct (is_space c'); [discriminate|].
  destruct (split (String c' s')); discriminate.
Qed.

Lemma split_nonempty_truthy s : split s <> [] -> truthy (strip s) = true.
Proof.
  intros H. rewrite truthy_strip.
  destruct (all_chars is_space s) eqn:E; [|reflexivity].
  apply split_nil_iff in E. contradiction.
Qed.

(** the pieces of [raw.split(",")] of a string made of commas and
    whitespace are whitespace-only *)
Lemma split_on_blank raw :
  all_chars (fun c => Ascii.eqb c "," || is_space c) raw = true ->
  Forall (fun piece => all_chars is_space piece = true) (split_on "," raw).
Proof.
  induction raw as [|c raw IH]; simpl; [repeat constructor|].
  intros H. apply andb_true_iff in H as [Hc H]. specialize (IH H).
  destruct (Ascii.eqb c ",") eqn:Ec; [constructor; [reflexivity|exact IH]|].
  simpl in Hc. destruct (split_on "," raw) as [|piece ps].
  - repeat constructor. simpl. rewrite Hc. reflexivity.
  - inversion IH; subst. constructor; [|assumption].
    simpl. rewrite Hc. assumption.
Qed.

End SplitFacts.

Module NormFacts.
Import PyStr PyStrFacts SplitFacts.

Lemma punct_lower_char c :
  char_in PUNCT (lower_char c) = char_in PUNCT c.
Proof. by_char c. Qed.

Lemma lower_strip_punct s :
  lower (strip_chars PUNCT s) = strip_chars PUNCT (lower s).
Proof. apply lower_strip_by, punct_lower_char. Qed.

Lemma strip_punct_idem s :
  strip_chars PUNCT (strip_chars PUNCT s) = strip_chars PUNCT s.
Proof. apply strip_by_idem. Qed.

(** on a string without surrounding whitespace [_norm] is the token
    normalization *)
Lemma norm_as_token s : strip s = s -> _norm s = token_norm s.
Proof. unfold _norm, token_norm. intros ->. reflexivity. Qed.

Lemma token_norm_idem t : token_norm (token_norm t) = token_norm t.
Proof.
  unfold token_norm.
  rewrite lower_strip_punct, lower_idem, strip_punct_idem. reflexivity.
Qed.

Lemma no_space_token_norm t :
  no_space t = true -> no_space (token_norm t) = true.
Proof.
  intros H. unfold token_norm, strip_chars, no_space.
  apply all_chars_strip_keeps. rewrite all_chars_lower; [exact H|].
  intros c. rewrite is_space_lower_char. reflexivity.
Qed.

(** [_norm] agrees with the token normalization on whitespace-free
    strings, in particular on the tokens of [str.split] *)
Lemma norm_token t : no_space t = true -> _norm t = token_norm t.
Proof. intros H. apply norm_as_token, strip_no_space, H. Qed.

Lemma norm_split_token s t : t ∈ split s -> _norm t = token_norm t.
Proof.
  intros Hin. apply norm_token.
  pose proof (split_tokens s) as H. rewrite Forall_forall in H.
  apply (H t Hin).
Qed.

Lemma norm_length s : String.length (_norm s) <= String.length s.
Proof.
  unfold _norm, strip_chars.
  pose proof (strip_by_length (char_in PUNCT) (lower (strip s))).
  pose proof (strip_by_length is_space s).
  rewrite lower_length in *. unfold strip in *. lia.
Qed.

(** [_norm] is stable exactly on the strings whose normal form has no
    surrounding whitespace left *)
Lemma norm_idem_iff s :
  _norm (_norm s) = _norm s <-> strip (_norm s) = _norm s.
Proof.
  split.
  - intros H. apply strip_by_same_length.
    pose proof (strip_by_length is_space (_norm s)) as H1.
    assert (String.length (_norm (_norm s)) <= String.length (strip (_norm s))).
    { unfold _norm at 1, strip_chars.
      pose proof (strip_by_length (char_in PUNCT) (lower (strip (_norm s)))).
      rewrite lower_length in *. assumption. }
    rewrite H in *. unfold strip in *. lia.
  - intros H. rewrite (norm_as_token _ H).
    unfold _norm. apply token_norm_idem.
Qed.

Lemma strip_lower_idem w : strip_lower (strip_lower w) = strip_lower w.
Proof.
  unfold strip_lower.
  rewrite <- lower_strip, strip_idem, lower_idem. reflexivity.
Qed.

(** what [_norm] makes of a stored word is what it makes of the word
    as given *)
Lemma norm_strip_lower w : _norm (strip_lower w) = _norm w.
Proof.
  unfold _norm, strip_lower.
  rewrite <- lower_strip, strip_idem, lower_idem. reflexivity.
Qed.

Lemma strip_lower_truthy w : truthy (strip_lower w) = truthy (strip w).
Proof. apply truthy_lower. Qed.

End NormFacts.

(* ===================================================================== *)
(** * Facts about [wrapper]                                               *)
(* ===================================================================== *)

Module WrapperFacts.
Import PyStr PyStrFacts SplitFacts NormFacts.

Ltac py_unfold :=
  unfold wrapper, wrapper_try, gate, notify, try_except, session_emit,
    getattr, str_method, tell, mbind, Py_bind, mret, Py_ret, mthrow,
    Py_throw in *.

Lemma py_or_str s : py_or (PyStr s) (PyStr EmptyString) = PyStr s.
Proof. destruct s; reflexivity. Qed.

(** what the notification does once the gate has been passed *)
Lemma notify_speaking activity :
  agent_speaking activity = true ->
  exists sess,
    _session activity = Present (Some sess) /\
    notify activity =
      (match emit sess with
       | Missing => [LogDebug (AttributeError "emit")]
       | Present how =>
           SessionEmit "agent_false_interruption"
             :: match how with
                | Some e => [LogDebug e]
                | None => []
                end
       end,
       inr tt).
Proof.
  unfold agent_speaking, getattr_default. intros H.
  destruct (_session activity) as [|[sess|]] eqn:E; try discriminate.
  exists sess. split; [reflexivity|].
  py_unfold. rewrite E. destruct (emit sess) as [|[e|]]; reflexivity.
Qed.

Lemma emitted_notify activity :
  agent_speaking activity = true ->
  emitted (trace (notify activity))
  = (if has_emit activity then ["agent_false_interruption"] else [])
  /\ forwarded (trace (notify activity)) = []
  /\ outcome (notify activity) = inr tt.
Proof.
  intros H. destruct (notify_speaking _ H) as (sess & E & ->).
  unfold has_emit. rewrite E.
  destruct (emit sess) as [|[e|]]; repeat split.
Qed.

(** the body of the outer [try] while the agent is speaking *)
Lemma wrapper_try_speaking self activity sw ev v :
  transcript ev = Present v ->
  agent_speaking activity = true ->
  wrapper_try self activity sw ev =
    match py_or v (PyStr EmptyString) with
    | PyStr s =>
        if truthy (strip s)
           && match _ignored_words self with [] => false | _ => true end
           && all_fillers self (tokens_of sw s)
        then (LogInfo s :: trace (notify activity), inr true)
        else ([], inr false)
    | _ => ([], inl (AttributeError "strip"))
    end.
Proof.
  intros Ht Hs. destruct (notify_speaking _ Hs) as (sess & _ & Hn).
  unfold wrapper_try, gate. rewrite Ht, Hs, Hn.
  unfold getattr, str_method, mbind, Py_bind, mret, Py_ret, mthrow,
    Py_throw, tell.
  cbv beta iota.
  destruct (py_or v (PyStr EmptyString)) as [|s|z]; try reflexivity.
  destruct (truthy (strip s)); cbn [andb]; [|reflexivity].
  destruct (_ignored_words self) eqn:Ew; cbn [andb]; [reflexivity|].
  destruct (all_fillers self (tokens_of sw s)); [|reflexivity].
  cbn. rewrite !app_nil_r. reflexivity.
Qed.

(** the body of the outer [try] while the agent is not speaking *)
Lemma wrapper_try_not_speaking self activity sw ev :
  agent_speaking activity = false ->
  wrapper_try self activity sw ev =
    match transcript ev with
    | Present _ => ([], inr false)
    | Missing => ([], inl (AttributeError "transcript"))
    end.
Proof.
  intros Hs. unfold wrapper_try, gate. rewrite Hs.
  destruct (transcript ev); reflexivity.
Qed.

(** [wrapper] in terms of the body of its [try] *)
Lemma wrapper_of_try self activity sw orig ev :
  wrapper self activity sw orig ev =
    match wrapper_try self activity sw ev with
    | (t, inr true) => (t, inr Suppress)
    | (t, inr false) => ((t ++ [CallOrig orig ev])%list, inr Forward)
    | (t, inl e) =>
        ((t ++ [LogException e; CallOrig orig ev])%list, inr Forward)
    end.
Proof.
  unfold wrapper, try_except, tell, mbind, Py_bind, mret, Py_ret.
  destruct (wrapper_try self activity sw ev) as [t [e|[|]]]; cbn;
    rewrite ?app_nil_r, <- ?app_assoc; reflexivity.
Qed.

(** [wrapper] on a string transcript while the agent is speaking *)
Lemma wrapper_speaking self activity sw orig ev s :
  transcript ev = Present (PyStr s) ->
  agent_speaking activity = true ->
  wrapper self activity sw orig ev =
    if truthy (strip s)
       && match _ignored_words self with [] => false | _ => true end
       && all_fillers self (tokens_of sw s)
    then (LogInfo s :: trace (notify activity), inr Suppress)
    else ([CallOrig orig ev], inr Forward).
Proof.
  intros Ht Hs.
  rewrite wrapper_of_try, (wrapper_try_speaking _ _ _ _ _ Ht Hs), py_or_str.
  destruct (_ && _); reflexivity.
Qed.

(** [wrapper] while the agent is not speaking *)
Lemma wrapper_not_speaking self activity sw orig ev :
  agent_speaking activity = false ->
  wrapper self activity sw orig ev =
    match transcript ev with
    | Present _ => ([CallOrig orig ev], inr Forward)
    | Missing =>
        ([LogException (AttributeError "transcript"); CallOrig orig ev],
         inr Forward)
    end.
Proof.
  intros Hs. rewrite wrapper_of_try, (wrapper_try_not_speaking _ _ _ _ Hs).
  destruct (transcript ev); reflexivity.
Qed.



End WrapperFacts.

Module DecisionFacts.
Import PyStr PyStrFacts SplitFacts NormFacts WrapperFacts.

(** the agent counts as speaking exactly when the activity has a
    session whose [agent_state] is the string "speaking" *)
Lemma agent_speaking_iff activity :
  agent_speaking activity = true <->
  exists sess, _session activity = Present (Some sess)
               /\ agent_state sess = Present (PyStr "speaking").
Proof.
  unfold agent_speaking, getattr_default. split.
  - destruct (_session activity) as [|[sess|]]; try discriminate.
    intros H. exists sess. split; [reflexivity|].
    destruct (agent_state sess) as [|[|s|z]]; try discriminate.
    simpl in H. apply String.eqb_eq in H. subst. reflexivity.
  - intros (sess & -> & ->). reflexivity.
Qed.

Lemma all_fillers_spec self toks :
  all_fillers self toks = true <->
  toks <> [] /\ Forall (fun tok => tok ∈ ignored_set self) toks.
Proof.
  unfold all_fillers. destruct toks as [|t ts].
  - split; [discriminate|]. intros [H _]. contradiction.
  - rewrite forallb_forall, Forall_forall. split.
    + intros H. split; [discriminate|]. intros x Hx.
      apply list_elem_of_In, H, bool_decide_eq_true in Hx. exact Hx.
    + intros [_ H] x Hx. apply bool_decide_eq_true, H, list_elem_of_In, Hx.
Qed.

(** the test of the wrapper on the whitespace tokens, in terms of
    [_norm] *)
Lemma all_fillers_split self s :
  all_fillers self (map token_norm (split s)) = true <->
  split s <> [] /\ Forall (fun t => _norm t ∈ ignored_set self) (split s).
Proof.
  rewrite all_fillers_spec, Forall_map. split; intros [Hne H]; split.
  - intros E. rewrite E in Hne. contradiction.
  - rewrite Forall_forall in *. intros t Ht.
    rewrite (norm_split_token s t Ht). apply H, Ht.
  - intros E. apply map_eq_nil in E. contradiction.
  - rewrite Forall_forall in *. intros t Ht. simpl.
    rewrite <- (norm_split_token s t Ht). apply H, Ht.
Qed.

End DecisionFacts.

(* ===================================================================== *)
(** * The decision of [wrapper]                                           *)
(* ===================================================================== *)

Import PyStrFacts SplitFacts NormFacts WrapperFacts DecisionFacts.

(** decide a closed membership goal by evaluation *)
Ltac by_evaluation := apply (bool_decide_unpack _); vm_compute; exact I.

(** C1. While the agent is speaking and the vocabulary is non-empty, a
    string transcript whose whitespace tokens are one or more and all
    normalize into the normalized vocabulary set is suppressed: the
    invocation ends in the bare return and the original handler is not
    called. If some token normalizes to a string outside that set, the
    original handler is called with the event and nothing else
    happens. *)
Theorem filler_only_suppressed_else_forwarded
    self activity sw orig ev s :
  transcript ev = Present (PyStr s) ->
  agent_speaking activity = true ->
  _ignored_words self <> [] ->
  tokens_of sw s = tokens_of no_split_words s ->
  (PyStr.split s <> [] /\
   Forall (fun t => _norm t ∈ ignored_set self) (PyStr.split s) ->
   outcome (wrapper self activity sw orig ev) = inr Suppress
   /\ forwarded (trace (wrapper self activity sw orig ev)) = [])
  /\ (Exists (fun t => _norm t ∉ ignored_set self) (PyStr.split s) ->
      wrapper self activity sw orig ev = ([CallOrig orig ev], inr Forward)).
Proof.
  intros Ht Hs Hw Htok.
  rewrite (wrapper_speaking _ _ _ _ _ _ Ht Hs), Htok.
  change (tokens_of no_split_words s) with (map token_norm (PyStr.split s)).
  destruct (_ignored_words self) as [|w ws] eqn:Ew; [contradiction|].
  split.
  - intros [Hne Hall].
    rewrite (split_nonempty_truthy _ Hne).
    rewrite (proj2 (all_fillers_split self s) (conj Hne Hall)). simpl.
    split; [reflexivity|].
    destruct (emitted_notify _ Hs) as (_ & Hf & _). exact Hf.
  - intros Hex.
    destruct (all_fillers self (map token_norm (PyStr.split s))) eqn:Ea.
    + apply all_fillers_split in Ea as [_ Hall].
      apply Exists_exists in Hex as (t & Hin & Hnot).
      rewrite Forall_forall in Hall. destruct (Hnot (Hall t Hin)).
    + rewrite andb_false_r. reflexivity.
Qed.

Lemma filler_only_suppressed_else_forwarded_witness :
  outcome (wrapper default_filter (FakeActivity (FakeSession "speaking"))
             no_split_words (HostMethod 0) (Ev "Umm, [noise]"))
  = inr Suppress
  /\ wrapper default_filter (FakeActivity (FakeSession "speaking"))
       no_split_words (HostMethod 0) (Ev "umm stop")
     = ([CallOrig (HostMethod 0) (Ev "umm stop")], inr Forward).
Proof.
  split.
  - refine (proj1 (proj1 (filler_only_suppressed_else_forwarded
      default_filter (FakeActivity (FakeSession "speaking")) no_split_words
      (HostMethod 0) (Ev "Umm, [noise]") "Umm, [noise]"
      eq_refl eq_refl _ eq_refl) _)).
    + vm_compute. discriminate.
    + split; [vm_compute; discriminate|].
      repeat constructor; by_evaluation.
  - refine (proj2 (filler_only_suppressed_else_forwarded
      default_filter (FakeActivity (FakeSession "speaking")) no_split_words
      (HostMethod 0) (Ev "umm stop") "umm stop"
      eq_refl eq_refl _ eq_refl) _).
    + vm_compute. discriminate.
    + apply Exists_cons_tl, Exists_cons_hd. by_evaluation.
Defined.

(** C2. For a string transcript, when the agent is not speaking, or the
    vocabulary is empty, or the transcript is empty or made of
    whitespace only, the original handler is called with the event, and
    that is all the invocation does, whatever the transcript says and
    whichever tokenizer is at hand. *)
Theorem gate_closed_forwards self activity sw orig ev s :
  transcript ev = Present (PyStr s) ->
  agent_speaking activity = false
  \/ _ignored_words self = []
  \/ PyStr.all_chars PyStr.is_space s = true ->
  wrapper self activity sw orig ev = ([CallOrig orig ev], inr Forward).
Proof.
  intros Ht H. destruct (agent_speaking activity) eqn:Hs.
  - rewrite (wrapper_speaking _ _ _ _ _ _ Ht Hs).
    destruct H as [H|[H|H]]; [discriminate| |].
    + rewrite H, andb_false_r. reflexivity.
    + rewrite truthy_strip, H. reflexivity.
  - rewrite (wrapper_not_speaking _ _ _ _ _ Hs), Ht. reflexivity.
Qed.

Lemma gate_closed_forwards_witness :
  wrapper default_filter (FakeActivity (FakeSession "listening"))
    no_split_words (HostMethod 0) (Ev "umm")
  = ([CallOrig (HostMethod 0) (Ev "umm")], inr Forward)
  /\ wrapper (set_ignored_words default_filter [])
       (FakeActivity (FakeSession "speaking"))
       no_split_words (HostMethod 0) (Ev "uh")
     = ([CallOrig (HostMethod 0) (Ev "uh")], inr Forward)
  /\ wrapper default_filter (FakeActivity (FakeSession "speaking"))
       no_split_words (HostMethod 0) (Ev "   ")
     = ([CallOrig (HostMethod 0) (Ev "   ")], inr Forward).
Proof.
  split; [|split].
  - apply (gate_closed_forwards _ _ _ _ (Ev "umm") "umm" eq_refl).
    left. reflexivity.
  - apply (gate_closed_forwards _ _ _ _ (Ev "uh") "uh" eq_refl).
    right; left. reflexivity.
  - apply (gate_closed_forwards _ _ _ _ (Ev "   ") "   " eq_refl).
    right; right. reflexivity.
Defined.



(** C9. An event whose transcript is [None] goes through the body of the
    [try] exactly as the same event with the empty transcript does, and
    is forwarded. When the activity has no [_session] attribute, or a
    [_session] that is [None], or a session whose [agent_state] is not
    the string "speaking", every event is forwarded: the original
    handler is called once, with the event as it came, and [emit] is not
    called. *)
Theorem degenerate_inputs_forward self activity sw orig ev :
  (transcript ev = Present PyNone ->
     wrapper_try self activity sw ev
     = wrapper_try self activity sw
         (with_transcript (Present (PyStr EmptyString)) ev)
     /\ wrapper self activity sw orig ev = ([CallOrig orig ev], inr Forward))
  /\ (_session activity = Missing
      \/ _session activity = Present None
      \/ (exists sess, _session activity = Present (Some sess)
            /\ agent_state sess <> Present (PyStr "speaking")) ->
      outcome (wrapper self activity sw orig ev) = inr Forward
      /\ forwarded (trace (wrapper self activity sw orig ev)) = [ev]
      /\ emitted (trace (wrapper self activity sw orig ev)) = []).
Proof.
  split.
  - intros Ht. split.
    + unfold wrapper_try. rewrite Ht. reflexivity.
    + destruct (agent_speaking activity) eqn:Hs.
      * rewrite wrapper_of_try, (wrapper_try_speaking _ _ _ _ _ Ht Hs).
        reflexivity.
      * rewrite (wrapper_not_speaking _ _ _ _ _ Hs), Ht. reflexivity.
  - intros H.
    assert (Hs : agent_speaking activity = false).
    { destruct (agent_speaking activity) eqn:Hs; [|reflexivity].
      apply agent_speaking_iff in Hs as (sess & Hsess & Hst).
      destruct H as [H|[H|(sess' & H & Hne)]]; rewrite Hsess in H;
        try discriminate.
      inversion H; subst. contradiction. }
    rewrite (wrapper_not_speaking _ _ _ _ _ Hs).
    destruct (transcript ev); repeat split.
Qed.

Lemma degenerate_inputs_forward_witness :
  let none_ev :=
    {| transcript := Present PyNone; is_final := true; item_id := None |} in
  let no_session :=
    {| obj_id := 1; _session := Missing;
       _on_input_audio_transcription_completed := Present (HostMethod 0) |} in
  wrapper default_filter (FakeActivity (FakeSession "speaking"))
    no_split_words (HostMethod 0) none_ev
  = ([CallOrig (HostMethod 0) none_ev], inr Forward)
  /\ outcome (wrapper default_filter no_session no_split_words
                (HostMethod 0) (Ev "uh")) = inr Forward
  /\ outcome (wrapper default_filter (FakeActivity (FakeSession "thinking"))
                no_split_words (HostMethod 0) (Ev "uh")) = inr Forward.
Proof.
  intros none_ev no_session. split; [|split].
  - apply (proj1 (degenerate_inputs_forward default_filter
      (FakeActivity (FakeSession "speaking")) no_split_words (HostMethod 0)
      none_ev)).
    reflexivity.
  - apply (proj2 (degenerate_inputs_forward default_filter no_session
      no_split_words (HostMethod 0) (Ev "uh"))).
    left. reflexivity.
  - apply (proj2 (degenerate_inputs_forward default_filter
      (FakeActivity (FakeSession "thinking")) no_split_words (HostMethod 0)
      (Ev "uh"))).
    right; right. exists (FakeSession "thinking").
    split; [reflexivity|discriminate].
Defined.

(* ===================================================================== *)
(** * Normalization                                                       *)
(* ===================================================================== *)

(** C5, as stated, fails: [_norm] is not idempotent on every string.
    Punctuation around inner whitespace leaves that whitespace at the
    ends of the normal form, and a second pass trims it. *)
Lemma norm_not_idempotent_everywhere :
  _norm (_norm "( a )") <> _norm "( a )".
Proof. vm_compute. discriminate. Qed.

(** C5 (amended). [_norm] (trim, lowercase, strip the punctuation
    characters from both ends) is idempotent exactly at the strings whose
    normal form keeps no whitespace at its ends; among them every string
    free of whitespace, so every token of the whitespace split, on which
    [_norm] is also the token normalization of the wrapper. "[noise]"
    and "noise" have the same normal form, "noise". *)
Theorem norm_idempotent_on_tokens :
  (forall s, _norm (_norm s) = _norm s <-> PyStr.strip (_norm s) = _norm s)
  /\ (forall t, PyStr.no_space t = true ->
        _norm (_norm t) = _norm t /\ _norm t = token_norm t)
  /\ _norm "[noise]" = _norm "noise"
  /\ _norm "noise" = "noise".
Proof.
  split; [exact norm_idem_iff|]. split; [|split; reflexivity].
  intros t Ht. split; [|apply norm_token, Ht].
  apply norm_idem_iff.
  rewrite (norm_token _ Ht). apply strip_no_space, no_space_token_norm, Ht.
Qed.

Lemma norm_idempotent_on_tokens_witness :
  _norm (_norm "[Noise],") = _norm "[Noise],"
  /\ _norm (_norm "you know") = _norm "you know".
Proof.
  split.
  - apply (proj1 (proj2 norm_idempotent_on_tokens)). reflexivity.
  - apply (proj1 norm_idempotent_on_tokens). reflexivity.
Defined.

(* ===================================================================== *)
(** * The vocabulary                                                      *)
(* ===================================================================== *)

Module VocabularyFacts.
Import PyStr.

(** ingesting words that are already trimmed, lowercased and non-empty
    changes nothing *)
Lemma ingest_trimmed l :
  ingest (map strip_lower
            (List.filter (fun p => truthy (strip p)) l))
  = map strip_lower (List.filter (fun p => truthy (strip p)) l).
Proof.
  unfold ingest. induction l as [|p l IH]; simpl; [reflexivity|].
  destruct (truthy (strip p)) eqn:E; simpl; [|exact IH].
  rewrite strip_lower_truthy, E. simpl.
  rewrite strip_lower_idem, IH. reflexivity.
Qed.

Lemma trimmed_nonempty l :
  Forall (fun w => w <> EmptyString)
         (map strip_lower (List.filter (fun p => truthy (strip p)) l)).
Proof.
  apply Forall_map, Forall_forall. intros p Hp.
  apply list_elem_of_In, filter_In in Hp as [_ Hp]. simpl.
  apply truthy_true. rewrite strip_lower_truthy. exact Hp.
Qed.

Lemma parse_parts_nonempty raw :
  Forall (fun w => w <> EmptyString) (parse_parts raw).
Proof. apply trimmed_nonempty. Qed.

(** where no entry is made of whitespace only, testing the entry and
    testing the trimmed entry select the same words *)
Lemma filter_truthy_trimmed words :
  Forall (fun w => w = EmptyString \/ strip w <> EmptyString) words ->
  List.filter truthy words
  = List.filter (fun w => truthy (strip w)) words.
Proof.
  induction 1 as [|w ws Hw _ IH]; simpl; [reflexivity|]. rewrite IH.
  destruct Hw as [->|Hw]; [reflexivity|].
  apply truthy_true in Hw. rewrite Hw.
  destruct w; [discriminate|reflexivity].
Qed.

(** a value made of commas and whitespace has no parts *)
Lemma parse_parts_blank raw :
  all_chars (fun c => Ascii.eqb c "," || is_space c) raw = true ->
  parse_parts raw = [].
Proof.
  intros Hblank. unfold parse_parts.
  pose proof (SplitFacts.split_on_blank raw Hblank) as H.
  induction H as [|piece ps Hp _ IH]; simpl; [reflexivity|].
  rewrite truthy_strip, Hp. simpl. exact IH.
Qed.

Lemma elem_of_ignored_set self t :
  t ∈ ignored_set self <-> exists w, w ∈ _ignored_words self /\ t = _norm w.
Proof.
  unfold ignored_set. rewrite elem_of_list_to_set, list_elem_of_fmap.
  split; intros (w & H1 & H2); exists w; tauto.
Qed.

(** with an empty vocabulary every event is forwarded *)
Lemma empty_vocabulary_forwards self activity sw orig ev :
  _ignored_words self = [] ->
  outcome (wrapper self activity sw orig ev) = inr Forward
  /\ forwarded (trace (wrapper self activity sw orig ev)) = [ev]
  /\ emitted (trace (wrapper self activity sw orig ev)) = [].
Proof.
  intros Hw. rewrite wrapper_of_try.
  destruct (agent_speaking activity) eqn:Hs.
  - destruct (transcript ev) as [|v] eqn:Ht.
    + unfold wrapper_try. rewrite Ht. repeat split.
    + rewrite (wrapper_try_speaking _ _ _ _ _ Ht Hs), Hw.
      destruct (py_or v (PyStr EmptyString)) as [|s|z];
        rewrite ?andb_false_r; repeat split.
  - rewrite (wrapper_try_not_speaking _ _ _ _ Hs).
    destruct (transcript ev); repeat split.
Qed.

End VocabularyFacts.

Import VocabularyFacts.

(** C6, as stated, fails: the stored vocabulary is a list, and a word
    given twice is stored twice. *)
Lemma set_ignored_words_keeps_duplicates :
  ~ NoDup (_ignored_words (set_ignored_words default_filter ["uh"; "uh"])).
Proof.
  change (_ignored_words (set_ignored_words default_filter ["uh"; "uh"]))
    with ["uh"; "uh"].
  intros H. apply NoDup_cons in H as [H _]. apply H. left.
Qed.

(** C6 (amended). For a sequence of strings without entries made of
    whitespace only, [set_ignored_words] replaces the stored word list by the trimmed, lowercased forms of the
    non-empty entries, in the order given and as often as given; no
    stored word is the empty string and the handler map is left alone.
    The normalized set built from the list at each decision holds each
    normal form once. The empty sequence stores the empty list, after
    which every event is forwarded. *)
Theorem set_ignored_words_stores_trimmed_lowercased self words :
  Forall (fun w => w = EmptyString \/ PyStr.strip w <> EmptyString) words ->
  _ignored_words (set_ignored_words self words)
  = map strip_lower
        (List.filter (fun w => PyStr.truthy (PyStr.strip w)) words)
  /\ _orig_handler_map (set_ignored_words self words) = _orig_handler_map self
  /\ Forall (fun w => w <> EmptyString)
            (_ignored_words (set_ignored_words self words))
  /\ (forall t, t ∈ ignored_set (set_ignored_words self words) <->
        exists w, w ∈ words /\ w <> EmptyString /\ t = _norm w)
  /\ NoDup (elements (ignored_set (set_ignored_words self words)))
  /\ (words = [] ->
      _ignored_words (set_ignored_words self words) = []
      /\ forall activity sw orig ev,
           outcome (wrapper (set_ignored_words self words) activity sw orig ev)
           = inr Forward
           /\ forwarded
                (trace (wrapper (set_ignored_words self words)
                          activity sw orig ev)) = [ev]).
Proof.
  intros Hwords.
  assert (Hst : _ignored_words (set_ignored_words self words)
                = map strip_lower
                    (List.filter (fun w => PyStr.truthy (PyStr.strip w)) words)).
  { simpl. unfold ingest. rewrite (filter_truthy_trimmed _ Hwords).
    reflexivity. }
  split; [exact Hst|]. split; [reflexivity|].
  split; [|split; [|split]].
  - rewrite Hst. apply trimmed_nonempty.
  - intros t. rewrite elem_of_ignored_set. simpl. unfold ingest. split.
    + intros (w' & Hw' & ->).
      apply list_elem_of_fmap in Hw' as (w & -> & Hw).
      apply list_elem_of_In, filter_In in Hw as [Hin Hne].
      exists w. split; [apply list_elem_of_In, Hin|].
      split; [apply truthy_true, Hne|apply norm_strip_lower].
    + intros (w & Hin & Hne & ->). exists (strip_lower w).
      split; [|symmetry; apply norm_strip_lower].
      apply list_elem_of_fmap. exists w. split; [reflexivity|].
      apply list_elem_of_In, filter_In. split; [apply list_elem_of_In, Hin|].
      apply truthy_true, Hne.
  - apply NoDup_elements.
  - intros ->. split; [reflexivity|]. intros activity sw orig ev.
    destruct (empty_vocabulary_forwards (set_ignored_words self [])
                activity sw orig ev eq_refl) as (H1 & H2 & _).
    split; assumption.
Qed.

Lemma set_ignored_words_stores_trimmed_lowercased_witness :
  _ignored_words
    (set_ignored_words default_filter [" Uh "; EmptyString; "UMM"; "uh"])
  = ["uh"; "umm"; "uh"].
Proof.
  refine (eq_trans (proj1 (set_ignored_words_stores_trimmed_lowercased
            default_filter [" Uh "; EmptyString; "UMM"; "uh"] _)) _).
  - repeat first
      [ apply Forall_nil_2
      | apply Forall_cons_2;
        [first [left; reflexivity | right; vm_compute; discriminate]|] ].
  - reflexivity.
Defined.

(* ===================================================================== *)
(** * The environment factory                                             *)
(* ===================================================================== *)

(** C7. The code does not get as far as the claim says. [from_env]
    reads the variable, falls back to the built-in string and computes
    the parts, and then calls the class with them; the class defines
    [_init_] where [__init__] was meant, so the call raises [TypeError]
    and no filter is returned, whatever the environment holds. The
    parts computed from the built-in string are the nineteen entries
    shown. *)
Theorem from_env_raises_type_error
    (environ : gmap string string) (env_var : string) :
  from_env environ env_var
  = inl (TypeError "FillerFilter() takes no arguments")
  /\ parse_parts DEFAULT_RAW
     = ["uh"; "umm"; "hmm"; "err"; "ah"; "like"; "you know";
        "mm"; "mhm"; "mmm";
        "[noise]"; "[background]"; "[inaudible]";
        "[laugh]"; "[cough]"; "[breath]";
        "<noise>"; "<silence>"; "<background>"].
Proof. split; [reflexivity|vm_compute; reflexivity]. Qed.

(** C10. The same defect: for the value ",,," the parts are computed,
    and they are none, but the call of the class with them raises
    [TypeError], so that no filter with an empty vocabulary comes
    back. *)
Theorem blank_env_value_raises_type_error :
  parse_parts ",,," = []
  /\ from_env (<[ DEFAULT_ENV_VAR := ",,," ]> ∅) DEFAULT_ENV_VAR
     = inl (TypeError "FillerFilter() takes no arguments").
Proof. split; reflexivity. Qed.

(* ===================================================================== *)
(** * Attaching and detaching                                             *)
(* ===================================================================== *)

(** C8. A successful [attach_to_activity] followed by a second one on
    the same activity changes neither the activity nor the filter, so
    the installed handler stays the wrapper of the first call. On an
    activity the filter is not attached to, attaching installs the
    wrapper around the handler found and records that handler, and
    [detach_from_activity] then gives back the filter and the activity
    as they were: the handler attribute is the original handler again.
    After any successful attach, detaching installs the handler the
    filter had recorded and forgets the activity. *)
Theorem attach_idempotent_detach_restores self activity :
  (forall self' activity',
      attach_to_activity self activity = inr (self', activity') ->
      attach_to_activity self' activity' = inr (self', activity'))
  /\ (forall orig,
        _orig_handler_map self !! obj_id activity = None ->
        _on_input_audio_transcription_completed activity = Present orig ->
        exists self' activity',
          attach_to_activity self activity = inr (self', activity')
          /\ _on_input_audio_transcription_completed activity'
             = Present (Wrapper (obj_id activity) orig)
          /\ _orig_handler_map self' !! obj_id activity = Some orig
          /\ detach_from_activity self' activity' = (self, activity))
  /\ (forall self' activity',
        attach_to_activity self activity = inr (self', activity') ->
        exists orig,
          _orig_handler_map self' !! obj_id activity = Some orig
          /\ _on_input_audio_transcription_completed
               (snd (detach_from_activity self' activity')) = Present orig
          /\ _orig_handler_map (fst (detach_from_activity self' activity'))
               !! obj_id activity = None).
Proof.
  split; [|split].
  - intros self' activity'. unfold attach_to_activity.
    destruct (_orig_handler_map self !! obj_id activity) eqn:E.
    + intros [= <- <-]. rewrite E. reflexivity.
    + destruct (_on_input_audio_transcription_completed activity);
        [discriminate|].
      intros [= <- <-]. simpl. rewrite lookup_insert_eq. reflexivity.
  - intros orig Hfree Hh. unfold attach_to_activity. rewrite Hfree, Hh.
    eexists _, _. split; [reflexivity|]. split; [reflexivity|].
    split; [simpl; apply lookup_insert_eq|].
    unfold detach_from_activity. simpl. rewrite lookup_insert_eq.
    rewrite delete_insert_eq, (delete_id _ _ Hfree).
    destruct self, activity; simpl in *. rewrite Hh. reflexivity.
  - intros self' activity'. unfold attach_to_activity.
    destruct (_orig_handler_map self !! obj_id activity) as [h|] eqn:E.
    + intros [= <- <-]. exists h. split; [exact E|].
      unfold detach_from_activity. rewrite E. simpl.
      split; [reflexivity|apply lookup_delete_eq].
    + destruct (_on_input_audio_transcription_completed activity) as [|h];
        [discriminate|].
      intros [= <- <-]. exists h. simpl.
      split; [apply lookup_insert_eq|].
      unfold detach_from_activity. simpl. rewrite lookup_insert_eq. simpl.
      split; [reflexivity|apply lookup_delete_eq].
Qed.

Lemma attach_idempotent_detach_restores_witness :
  exists self' activity',
    attach_to_activity default_filter (FakeActivity (FakeSession "speaking"))
    = inr (self', activity')
    /\ _on_input_audio_transcription_completed activity'
       = Present (Wrapper 1 (HostMethod 0))
    /\ _orig_handler_map self' !! 1 = Some (HostMethod 0)
    /\ detach_from_activity self' activity'
       = (default_filter, FakeActivity (FakeSession "speaking")).
Proof.
  apply (proj1 (proj2 (attach_idempotent_detach_restores default_filter
           (FakeActivity (FakeSession "speaking")))) (HostMethod 0));
    reflexivity.
Defined.

(* ===================================================================== *)
(** * The situations of the test files                                    *)
(* ===================================================================== *)

(** The situations the test files set up, on a filter that holds the
    built-in list: [attach_to_activity] on the fixture, then a call of
    the handler the activity now holds. *)
Definition attached_run (state text : string) : Py decision :=
  match attach_to_activity default_filter (FakeActivity (FakeSession state)) with
  | inr (self, activity) => deliver self activity no_split_words (Ev text)
  | inl e => mthrow e
  end.

Example situation_ignore_filler_while_agent_speaking :
  forwarded (trace (attached_run "speaking" "uh")) = []
  /\ emitted (trace (attached_run "speaking" "uh"))
     = ["agent_false_interruption"].
Proof. split; vm_compute; reflexivity. Qed.

Example situation_forward_filler_when_agent_listening :
  forwarded (trace (attached_run "listening" "umm")) = [Ev "umm"]
  /\ emitted (trace (attached_run "listening" "umm")) = [].
Proof. split; vm_compute; reflexivity. Qed.

Example situation_forward_mixed_filler_and_command :
  forwarded (trace (attached_run "speaking" "umm stop")) = [Ev "umm stop"].
Proof. vm_compute. reflexivity. Qed.

Example situation_ignore_murmur_while_agent_speaking :
  forwarded (trace (attached_run "speaking" "mm")) = []
  /\ emitted (trace (attached_run "speaking" "mm"))
     = ["agent_false_interruption"].
Proof. split; vm_compute; reflexivity. Qed.

Example situation_ignore_asr_marker_while_agent_speaking :
  forwarded (trace (attached_run "speaking" "[noise]")) = []
  /\ emitted (trace (attached_run "speaking" "[noise]"))
     = ["agent_false_interruption"].
Proof. split; vm_compute; reflexivity. Qed.

Example situation_forward_mixed_murmur_and_command :
  forwarded (trace (attached_run "speaking" "mm stop")) = [Ev "mm stop"].
Proof. vm_compute. reflexivity. Qed.

(** a session whose [emit] raises: the failure is logged and the event
    is suppressed all the same *)
Example suppress_with_failing_emit :
  wrapper default_filter
    (with_emit (Present (Some (RuntimeError "listener")))
       (FakeActivity (FakeSession "speaking")))
    no_split_words (HostMethod 0) (Ev "uh")
  = ([LogInfo "uh"; SessionEmit "agent_false_interruption";
      LogDebug (RuntimeError "listener")], inr Suppress).
Proof. vm_compute. reflexivity. Qed.

(** a session without [emit]: the lookup fails, the failure is logged,
    nothing is emitted and the event is suppressed all the same *)
Example suppress_without_emit :
  wrapper default_filter
    (with_emit Missing (FakeActivity (FakeSession "speaking")))
    no_split_words (HostMethod 0) (Ev "uh")
  = ([LogInfo "uh"; LogDebug (AttributeError "emit")], inr Suppress).
Proof. vm_compute. reflexivity. Qed.

(** an entry of whitespace only passes the test [if w] and is stored as
    the empty string *)
Example set_ignored_words_blank_entry :
  _ignored_words (set_ignored_words default_filter ["  "]) = [EmptyString].
Proof. reflexivity. Qed.

(* ===================================================================== *)
(** * The string primitives on examples                                   *)
(* ===================================================================== *)

Example split_drops_blank_runs :
  PyStr.split "  umm   stop " = ["umm"; "stop"].
Proof. reflexivity. Qed.

Example split_on_keeps_empty_pieces :
  PyStr.split_on "," "a,,b," = ["a"; EmptyString; "b"; EmptyString]
  /\ PyStr.split_on "," EmptyString = [EmptyString].
Proof. split; reflexivity. Qed.

Example strip_both_ends : PyStr.strip "  Uh huh " = "Uh huh".
Proof. reflexivity. Qed.

Example norm_examples :
  _norm " [Noise] " = "noise"
  /\ _norm "<silence>" = "silence"
  /\ _norm "You Know" = "you know"
  /\ _norm "( a )" = " a "
  /\ token_norm "Stop!" = "stop".
Proof. repeat split. Qed.

Example default_parts :
  parse_parts "mm,mhm,mmm,,,,[noise]" = ["mm"; "mhm"; "mmm"; "[noise]"].
Proof. reflexivity. Qed.

(* ===================================================================== *)
(** * More about tokens                                                   *)
(* ===================================================================== *)

Module TokenFacts.
Import PyStr PyStrFacts SplitFacts NormFacts.

Lemma split_head_nonempty c s :
  is_space c = false -> split (String c s) <> [].
Proof.
  intros Hc H. apply split_nil_iff in H. simpl in H. rewrite Hc in H.
  discriminate.
Qed.

(** lowercasing a text lowercases its tokens *)
Lemma split_lower s : split (lower s) = map lower (split s).
Proof.
  induction s as [|c s IH]; [reflexivity|].
  cbn [lower]. cbn [split]. rewrite is_space_lower_char.
  destruct (is_space c); [exact IH|].
  destruct s as [|c' s']; [reflexivity|].
  cbn [lower] in *. rewrite is_space_lower_char.
  destruct (is_space c') eqn:Ec'; [rewrite IH; reflexivity|].
  rewrite IH.
  destruct (split (String c' s')); reflexivity.
Qed.

Lemma split_cons2 c c' r :
  split (String c (String c' r))
  = if is_space c then split (String c' r)
    else if is_space c' then String c EmptyString :: split (String c' r)
    else match split (String c' r) with
         | w :: ws => String c w :: ws
         | [] => [String c EmptyString]
         end.
Proof. reflexivity. Qed.

(** the tokens of two texts joined by a whitespace character are the
    tokens of the first followed by the tokens of the second *)
Lemma split_app s1 sp s2 :
  is_space sp = true ->
  split (s1 ++ String sp s2) = (split s1 ++ split s2)%list.
Proof.
  intros Hsp. induction s1 as [|c s1 IH].
  - simpl. rewrite Hsp. reflexivity.
  - destruct s1 as [|c' s1'].
    + simpl. rewrite Hsp. destruct (is_space c); reflexivity.
    + change (String c (String c' s1') ++ String sp s2)
        with (String c (String c' (s1' ++ String sp s2))).
      change (String c' s1' ++ String sp s2)
        with (String c' (s1' ++ String sp s2)) in IH.
      rewrite !split_cons2, IH.
      destruct (is_space c); [reflexivity|].
      destruct (is_space c') eqn:Ec'; [reflexivity|].
      destruct (split (String c' s1')) eqn:E; [|reflexivity].
      destruct (split_head_nonempty c' s1' Ec' E).
Qed.

Lemma rstrip_head p c s d r :
  rstrip_by p (String c s) = String d r -> d = c.
Proof.
  simpl. destruct (rstrip_by p s); [destruct (p c)|]; congruence.
Qed.

Lemma split_lstrip s : split (lstrip_by is_space s) = split s.
Proof.
  induction s as [|c s IH]; [reflexivity|].
  simpl lstrip_by. destruct (is_space c) eqn:Ec; [|reflexivity].
  rewrite IH. simpl. rewrite Ec. reflexivity.
Qed.

Lemma split_rstrip s : split (rstrip_by is_space s) = split s.
Proof.
  induction s as [|c s IH]; [reflexivity|].
  cbn [rstrip_by]. destruct (rstrip_by is_space s) as [|d r] eqn:E.
  - pose proof (proj1 (rstrip_empty_iff is_space s) E) as Hall.
    pose proof (proj2 (split_nil_iff s) Hall) as Hnil.
    destruct (is_space c) eqn:Ec.
    + simpl. rewrite Ec. symmetry. exact Hnil.
    + cbn [split]. rewrite Ec. destruct s as [|c' s']; [reflexivity|].
      simpl in Hall. apply andb_true_iff in Hall as [Hc' _].
      rewrite Hc', Hnil. reflexivity.
  - destruct s as [|c' s']; [discriminate|].
    pose proof (rstrip_head _ _ _ _ _ E) as ->.
    rewrite !split_cons2, IH. reflexivity.
Qed.

(** surrounding whitespace does not change the tokens *)
Lemma split_strip s : split (strip s) = split s.
Proof. unfold strip, strip_by. rewrite split_lstrip, split_rstrip. reflexivity. Qed.

Lemma token_norm_lower t : token_norm (lower t) = token_norm t.
Proof. unfold token_norm. rewrite lower_idem. reflexivity. Qed.

(** the tokens the wrapper compares do not depend on the case of the
    transcript *)
Lemma tokens_lower s :
  tokens_of no_split_words (lower s) = tokens_of no_split_words s.
Proof.
  unfold tokens_of, no_split_words. rewrite split_lower, map_map.
  apply map_ext. intros t. apply token_norm_lower.
Qed.

Lemma tokens_strip s :
  tokens_of no_split_words (strip s) = tokens_of no_split_words s.
Proof. unfold tokens_of, no_split_words. rewrite split_strip. reflexivity. Qed.

Lemma tokens_app s1 sp s2 :
  is_space sp = true ->
  tokens_of no_split_words (s1 ++ String sp s2)
  = (tokens_of no_split_words s1 ++ tokens_of no_split_words s2)%list.
Proof.
  intros H. unfold tokens_of, no_split_words.
  rewrite (split_app _ _ _ H), map_app. reflexivity.
Qed.

(** the tokens the wrapper compares are free of whitespace *)
Lemma tokens_no_space s t :
  t ∈ tokens_of no_split_words s -> no_space t = true.
Proof.
  unfold tokens_of, no_split_words. intros Ht.
  apply list_elem_of_fmap in Ht as (t0 & -> & Ht0).
  pose proof (split_tokens s) as H. rewrite Forall_forall in H.
  apply no_space_token_norm, (H t0 Ht0).
Qed.

(** a token made of punctuation only has the empty normal form *)
Lemma token_norm_punct t :
  all_chars (char_in PUNCT) t = true -> token_norm t = EmptyString.
Proof.
  intros H. unfold token_norm, strip_chars. apply truthy_false.
  rewrite truthy_strip_by, all_chars_lower, H; [reflexivity|].
  apply punct_lower_char.
Qed.

End TokenFacts.

(* ===================================================================== *)
(** * More about the decision                                             *)
(* ===================================================================== *)

Module OutcomeFacts.
Import PyStr PyStrFacts SplitFacts NormFacts WrapperFacts DecisionFacts.
Import VocabularyFacts TokenFacts.

(** the test can only succeed against a non-empty word list *)
Lemma all_fillers_words self toks :
  all_fillers self toks = true -> _ignored_words self <> [].
Proof.
  intros H Hw. apply all_fillers_spec in H as [Hne H].
  destruct toks as [|t ts]; [contradiction|].
  inversion H as [|? ? Ht _]; subst.
  apply elem_of_ignored_set in Ht as (w & Hin & _).
  rewrite Hw in Hin. inversion Hin.
Qed.

Lemma all_fillers_absorbs_words self toks :
  match _ignored_words self with [] => false | _ => true end
  && all_fillers self toks
  = all_fillers self toks.
Proof.
  destruct (all_fillers self toks) eqn:E; [|apply andb_false_r].
  apply all_fillers_words in E.
  destruct (_ignored_words self); [contradiction|reflexivity].
Qed.

(** the decision on a string transcript, for any tokenizer *)
Lemma outcome_string self activity sw orig ev s :
  transcript ev = Present (PyStr s) ->
  outcome (wrapper self activity sw orig ev)
  = inr (if agent_speaking activity && truthy (strip s)
            && all_fillers self (tokens_of sw s)
         then Suppress else Forward).
Proof.
  intros Ht. destruct (agent_speaking activity) eqn:Hs.
  - rewrite (wrapper_speaking _ _ _ _ _ _ Ht Hs).
    rewrite <- andb_assoc, all_fillers_absorbs_words. simpl.
    destruct (_ && _); reflexivity.
  - rewrite (wrapper_not_speaking _ _ _ _ _ Hs), Ht. reflexivity.
Qed.

(** with the whitespace tokens, a successful test implies a transcript
    that is not blank *)
Lemma all_fillers_truthy self s :
  all_fillers self (tokens_of no_split_words s) = true ->
  truthy (strip s) = true.
Proof.
  intros H. apply split_nonempty_truthy. intros E.
  unfold tokens_of, no_split_words in H. rewrite E in H. discriminate.
Qed.

(** the decision on a string transcript with the whitespace tokens *)
Lemma outcome_string_split self activity orig ev s :
  transcript ev = Present (PyStr s) ->
  outcome (wrapper self activity no_split_words orig ev)
  = inr (if agent_speaking activity
            && all_fillers self (tokens_of no_split_words s)
         then Suppress else Forward).
Proof.
  intros Ht. rewrite (outcome_string _ _ _ _ _ _ Ht).
  destruct (agent_speaking activity); [|reflexivity]. simpl.
  destruct (all_fillers self (tokens_of no_split_words s)) eqn:E;
    [|rewrite andb_false_r; reflexivity].
  rewrite (all_fillers_truthy _ _ E). reflexivity.
Qed.

Lemma all_fillers_mono self1 self2 toks :
  ignored_set self1 ⊆ ignored_set self2 ->
  all_fillers self1 toks = true -> all_fillers self2 toks = true.
Proof.
  intros Hsub H. apply all_fillers_spec in H as [Hne H].
  apply all_fillers_spec. split; [exact Hne|].
  eapply Forall_impl; [exact H|]. intros t Ht. apply Hsub, Ht.
Qed.

Lemma all_fillers_ext self1 self2 toks :
  ignored_set self1 = ignored_set self2 ->
  all_fillers self1 toks = all_fillers self2 toks.
Proof.
  intros E. unfold all_fillers. rewrite E. reflexivity.
Qed.

Lemma all_fillers_app self l1 l2 :
  all_fillers self (l1 ++ l2)%list
  = match l1, l2 with
    | [], _ => all_fillers self l2
    | _, [] => all_fillers self l1
    | _, _ => all_fillers self l1 && all_fillers self l2
    end.
Proof.
  destruct l1 as [|a l1]; [reflexivity|].
  destruct l2 as [|b l2]; [rewrite app_nil_r; reflexivity|].
  unfold all_fillers. rewrite <- forallb_app. reflexivity.
Qed.

End OutcomeFacts.

Module SuppressFacts.
Import PyStr PyStrFacts SplitFacts NormFacts WrapperFacts DecisionFacts.
Import VocabularyFacts TokenFacts OutcomeFacts.

(** the decision on any event, for any tokenizer *)
Lemma outcome_any self activity sw orig ev :
  outcome (wrapper self activity sw orig ev)
  = inr match transcript ev with
        | Present (PyStr s) =>
            if agent_speaking activity && truthy (strip s)
               && all_fillers self (tokens_of sw s)
            then Suppress else Forward
        | _ => Forward
        end.
Proof.
  destruct (transcript ev) as [|v] eqn:Ht.
  - rewrite wrapper_of_try. unfold wrapper_try. rewrite Ht. reflexivity.
  - destruct v as [|s|z]; [|apply outcome_string, Ht|];
      rewrite wrapper_of_try;
      (destruct (agent_speaking activity) eqn:Hs;
       [rewrite (wrapper_try_speaking _ _ _ _ _ Ht Hs)
       |rewrite (wrapper_try_not_speaking _ _ _ _ Hs), Ht]);
      try reflexivity.
    unfold py_or, py_truthy. destruct (negb (z =? 0)%Z); reflexivity.
Qed.

(** what a suppressing invocation looks like *)
Lemma suppress_inv self activity sw orig ev :
  outcome (wrapper self activity sw orig ev) = inr Suppress ->
  exists s,
    transcript ev = Present (PyStr s)
    /\ agent_speaking activity = true
    /\ truthy (strip s) = true
    /\ all_fillers self (tokens_of sw s) = true.
Proof.
  rewrite outcome_any.
  destruct (transcript ev) as [|[|s|z]] eqn:Ht; try discriminate.
  destruct (agent_speaking activity); [|discriminate].
  destruct (truthy (strip s)) eqn:E1; [|discriminate].
  destruct (all_fillers self (tokens_of sw s)) eqn:E2; [|discriminate].
  intros _. exists s. repeat split; assumption.
Qed.

(** whitespace-free tokens cannot tell a word list from the same list
    without the entries whose normal form holds whitespace *)
Lemma all_fillers_spaced self self' toks :
  _ignored_words self'
  = List.filter (fun w => no_space (_norm w)) (_ignored_words self) ->
  Forall (fun t => no_space t = true) toks ->
  all_fillers self toks = all_fillers self' toks.
Proof.
  intros Hw Htoks. apply eq_true_iff_eq. rewrite !all_fillers_spec.
  rewrite Forall_forall in Htoks.
  split; intros [Hne H]; (split; [exact Hne|]);
    rewrite Forall_forall in *; intros t Ht; specialize (H t Ht);
    apply elem_of_ignored_set in H as (w & Hin & ->);
    apply elem_of_ignored_set; exists w; (split; [|reflexivity]).
  - rewrite Hw. apply list_elem_of_In, filter_In.
    split; [apply list_elem_of_In, Hin|apply Htoks, Ht].
  - rewrite Hw in Hin. apply list_elem_of_In, filter_In in Hin as [Hin _].
    apply list_elem_of_In, Hin.
Qed.

End SuppressFacts.

(* ===================================================================== *)
(** * The notification                                                    *)
(* ===================================================================== *)

Import TokenFacts OutcomeFacts SuppressFacts.




(* ===================================================================== *)
(** * Further properties of the decision                                  *)
(* ===================================================================== *)


(** X2. The decision depends on the word list only through the set of
    the normal forms of its words: two filters whose lists have the same
    normalized set (the same words in another order, repeated, in
    another case or with other surrounding punctuation) treat every
    event in the same way, effects included. *)
Theorem decision_depends_on_normalized_set
    self1 self2 activity sw orig ev :
  ignored_set self1 = ignored_set self2 ->
  wrapper self1 activity sw orig ev = wrapper self2 activity sw orig ev.
Proof.
  intros E. rewrite !wrapper_of_try.
  destruct (agent_speaking activity) eqn:Hs.
  - destruct (transcript ev) as [|v] eqn:Ht.
    + unfold wrapper_try. rewrite Ht. reflexivity.
    + rewrite !(wrapper_try_speaking _ _ _ _ _ Ht Hs).
      destruct (py_or v (PyStr EmptyString)) as [|s|z]; try reflexivity.
      rewrite <- !andb_assoc, !all_fillers_absorbs_words.
      rewrite (all_fillers_ext _ _ _ E). reflexivity.
  - rewrite !(wrapper_try_not_speaking _ _ _ _ Hs). reflexivity.
Qed.

Lemma decision_depends_on_normalized_set_witness :
  wrapper (set_ignored_words default_filter ["uh"; "[noise]"])
    (FakeActivity (FakeSession "speaking")) no_split_words (HostMethod 0)
    (Ev "uh noise")
  = wrapper (set_ignored_words default_filter ["<NOISE>"; " Uh."; "uh"])
      (FakeActivity (FakeSession "speaking")) no_split_words (HostMethod 0)
      (Ev "uh noise").
Proof.
  apply (decision_depends_on_normalized_set
           (set_ignored_words default_filter ["uh"; "[noise]"])
           (set_ignored_words default_filter ["<NOISE>"; " Uh."; "uh"])).
  vm_compute. reflexivity.
Defined.

(** X3. Adding words never turns a suppressed event into a forwarded
    one: when the normalized set of one filter is included in that of
    another, every event the first suppresses is suppressed by the
    second. *)
Theorem larger_vocabulary_suppresses_more
    self1 self2 activity sw orig ev :
  ignored_set self1 ⊆ ignored_set self2 ->
  outcome (wrapper self1 activity sw orig ev) = inr Suppress ->
  outcome (wrapper self2 activity sw orig ev) = inr Suppress.
Proof.
  intros Hsub H.
  destruct (suppress_inv _ _ _ _ _ H) as (s & Ht & Hs & Hne & Hall).
  rewrite (outcome_string _ _ _ _ _ _ Ht), Hs, Hne.
  rewrite (all_fillers_mono _ _ _ Hsub Hall). reflexivity.
Qed.

Lemma larger_vocabulary_suppresses_more_witness :
  outcome (wrapper default_filter (FakeActivity (FakeSession "speaking"))
             no_split_words (HostMethod 0) (Ev "hmm uh"))
  = inr Suppress.
Proof.
  apply (larger_vocabulary_suppresses_more
           (set_ignored_words default_filter ["uh"; "hmm"]) default_filter).
  - apply (bool_decide_unpack _). vm_compute. exact I.
  - reflexivity.
Defined.

(** X4. With the whitespace tokens, neither the case of the transcript
    nor whitespace at its ends changes the decision. *)
Theorem decision_ignores_case_and_outer_whitespace
    self activity orig ev s :
  outcome (wrapper self activity no_split_words orig
             (with_transcript (Present (PyStr (PyStr.lower s))) ev))
  = outcome (wrapper self activity no_split_words orig
               (with_transcript (Present (PyStr s)) ev))
  /\ outcome (wrapper self activity no_split_words orig
                (with_transcript (Present (PyStr (PyStr.strip s))) ev))
     = outcome (wrapper self activity no_split_words orig
                  (with_transcript (Present (PyStr s)) ev)).
Proof.
  rewrite (outcome_string_split self activity orig
             (with_transcript (Present (PyStr (PyStr.lower s))) ev)
             (PyStr.lower s) eq_refl).
  rewrite (outcome_string_split self activity orig
             (with_transcript (Present (PyStr (PyStr.strip s))) ev)
             (PyStr.strip s) eq_refl).
  rewrite (outcome_string_split self activity orig
             (with_transcript (Present (PyStr s)) ev) s eq_refl).
  rewrite tokens_lower, tokens_strip. split; reflexivity.
Qed.

(** X5. With the whitespace tokens, two transcripts joined by a
    whitespace character are decided token by token: if both parts are
    suppressed the joined transcript is suppressed, and a joined
    transcript is suppressed only if each part is suppressed or
    blank. *)
Theorem joined_transcripts_decide_together
    self activity orig ev s1 sp s2 :
  PyStr.is_space sp = true ->
  (outcome (wrapper self activity no_split_words orig
              (with_transcript (Present (PyStr s1)) ev)) = inr Suppress ->
   outcome (wrapper self activity no_split_words orig
              (with_transcript (Present (PyStr s2)) ev)) = inr Suppress ->
   outcome (wrapper self activity no_split_words orig
              (with_transcript (Present (PyStr (s1 ++ String sp s2))) ev))
   = inr Suppress)
  /\ (outcome (wrapper self activity no_split_words orig
                 (with_transcript (Present (PyStr (s1 ++ String sp s2))) ev))
      = inr Suppress ->
      (outcome (wrapper self activity no_split_words orig
                  (with_transcript (Present (PyStr s1)) ev)) = inr Suppress
       \/ PyStr.split s1 = [])
      /\ (outcome (wrapper self activity no_split_words orig
                     (with_transcript (Present (PyStr s2)) ev)) = inr Suppress
          \/ PyStr.split s2 = [])).
Proof.
  intros Hsp.
  rewrite (outcome_string_split self activity orig
             (with_transcript (Present (PyStr s1)) ev) s1 eq_refl).
  rewrite (outcome_string_split self activity orig
             (with_transcript (Present (PyStr s2)) ev) s2 eq_refl).
  rewrite (outcome_string_split self activity orig
             (with_transcript (Present (PyStr (s1 ++ String sp s2))) ev)
             (s1 ++ String sp s2) eq_refl).
  rewrite (tokens_app _ _ _ Hsp), all_fillers_app.
  destruct (agent_speaking activity); simpl; [|split; discriminate].
  unfold tokens_of, no_split_words.
  destruct (PyStr.split s1) as [|a l1] eqn:E1;
    destruct (PyStr.split s2) as [|b l2] eqn:E2; cbn [map].
  - split; [discriminate|]. intros _. split; right; reflexivity.
  - split; [discriminate|]. intros H. split; [right; reflexivity|left; exact H].
  - split; [discriminate|]. intros H. split; [left; exact H|right; reflexivity].
  - destruct (all_fillers self (token_norm a :: map token_norm l1));
      destruct (all_fillers self (token_norm b :: map token_norm l2));
      simpl; split; try discriminate; auto.
Qed.

Lemma joined_transcripts_decide_together_witness :
  outcome (wrapper default_filter (FakeActivity (FakeSession "speaking"))
             no_split_words (HostMethod 0)
             (with_transcript (Present (PyStr "uh, umm [noise]")) (Ev "uh")))
  = inr Suppress.
Proof.
  apply (proj1 (joined_transcripts_decide_together default_filter
           (FakeActivity (FakeSession "speaking")) (HostMethod 0) (Ev "uh")
           "uh," " " "umm [noise]" eq_refl)); reflexivity.
Defined.

(** X6. With the whitespace tokens, a word whose normal form holds
    whitespace (a filler of two words such as "you know") never matches
    a token: the decision is the one of the filter without such
    words. *)
Theorem spaced_words_never_match self activity orig ev :
  outcome (wrapper self activity no_split_words orig ev)
  = outcome
      (wrapper
         {| _ignored_words :=
              List.filter (fun w => PyStr.no_space (_norm w))
                          (_ignored_words self);
            _orig_handler_map := _orig_handler_map self |}
         activity no_split_words orig ev).
Proof.
  rewrite !outcome_any. destruct (transcript ev) as [|[|s|z]]; try reflexivity.
  rewrite (all_fillers_spaced self
             {| _ignored_words :=
                  List.filter (fun w => PyStr.no_space (_norm w))
                              (_ignored_words self);
                _orig_handler_map := _orig_handler_map self |}
             (tokens_of no_split_words s) eq_refl); [reflexivity|].
  apply Forall_forall. intros t Ht. apply (tokens_no_space s t Ht).
Qed.

(** X7. With the whitespace tokens, a transcript with a token made of
    punctuation characters only is forwarded, unless some word of the
    list has the empty normal form. *)
Theorem punctuation_token_forwards self activity orig ev s t :
  transcript ev = Present (PyStr s) ->
  t ∈ PyStr.split s ->
  PyStr.all_chars (PyStr.char_in PUNCT) t = true ->
  EmptyString ∉ ignored_set self ->
  wrapper self activity no_split_words orig ev
  = ([CallOrig orig ev], inr Forward).
Proof.
  intros Ht Hin Hp Hno.
  destruct (agent_speaking activity) eqn:Hs.
  - rewrite (wrapper_speaking _ _ _ _ _ _ Ht Hs).
    destruct (all_fillers self (tokens_of no_split_words s)) eqn:Ea;
      [|rewrite andb_false_r; reflexivity].
    apply all_fillers_spec in Ea as [_ Ha]. rewrite Forall_forall in Ha.
    destruct Hno. rewrite <- (token_norm_punct t Hp). apply Ha.
    unfold tokens_of, no_split_words. apply list_elem_of_fmap.
    exists t. split; [reflexivity|exact Hin].
  - rewrite (wrapper_not_speaking _ _ _ _ _ Hs), Ht. reflexivity.
Qed.

Lemma punctuation_token_forwards_witness :
  wrapper default_filter (FakeActivity (FakeSession "speaking"))
    no_split_words (HostMethod 0) (Ev "uh ...")
  = ([CallOrig (HostMethod 0) (Ev "uh ...")], inr Forward).
Proof.
  apply (punctuation_token_forwards default_filter
           (FakeActivity (FakeSession "speaking")) (HostMethod 0)
           (Ev "uh ...") "uh ..." "..." eq_refl).
  - apply list_elem_of_In. right. left. reflexivity.
  - reflexivity.
  - by_evaluation.
Defined.

(** X8. With the whitespace tokens and the agent speaking, when some
    word of the list has the empty normal form (a word of punctuation
    only, say), every transcript whose tokens are all made of
    punctuation characters is suppressed, whichever characters they
    are. *)
Theorem empty_normal_form_matches_punctuation self activity orig ev s :
  transcript ev = Present (PyStr s) ->
  agent_speaking activity = true ->
  PyStr.split s <> [] ->
  Forall (fun t => PyStr.all_chars (PyStr.char_in PUNCT) t = true)
         (PyStr.split s) ->
  EmptyString ∈ ignored_set self ->
  outcome (wrapper self activity no_split_words orig ev) = inr Suppress.
Proof.
  intros Ht Hs Hne Hp Hin.
  rewrite (outcome_string_split _ _ _ _ _ Ht), Hs. simpl.
  assert (all_fillers self (tokens_of no_split_words s) = true) as ->;
    [|reflexivity].
  apply all_fillers_spec. unfold tokens_of, no_split_words. split.
  - intros E. apply map_eq_nil in E. contradiction.
  - apply Forall_map. eapply Forall_impl; [exact Hp|].
    intros t Hpt. simpl. rewrite (token_norm_punct t Hpt). exact Hin.
Qed.

Lemma empty_normal_form_matches_punctuation_witness :
  outcome (wrapper (set_ignored_words default_filter ["..."])
             (FakeActivity (FakeSession "speaking"))
             no_split_words (HostMethod 0) (Ev "?! (,)"))
  = inr Suppress.
Proof.
  apply (empty_normal_form_matches_punctuation
           (set_ignored_words default_filter ["..."])
           (FakeActivity (FakeSession "speaking")) (HostMethod 0)
           (Ev "?! (,)") "?! (,)" eq_refl eq_refl).
  - discriminate.
  - repeat (apply Forall_cons_2; [reflexivity|]). apply Forall_nil_2.
  - by_evaluation.
Defined.

(* ===================================================================== *)
(** * Further properties of attaching and detaching                       *)
(* ===================================================================== *)

Module AttachFacts.

Lemma attach_fresh self activity orig :
  _orig_handler_map self !! obj_id activity = None ->
  _on_input_audio_transcription_completed activity = Present orig ->
  attach_to_activity self activity
  = inr ({| _ignored_words := _ignored_words self;
            _orig_handler_map :=
              <[obj_id activity := orig]> (_orig_handler_map self) |},
         {| obj_id := obj_id activity;
            _session := _session activity;
            _on_input_audio_transcription_completed :=
              Present (Wrapper (obj_id activity) orig) |}).
Proof. intros H1 H2. unfold attach_to_activity. rewrite H1, H2. reflexivity. Qed.

Lemma detach_attached self activity orig :
  _orig_handler_map self !! obj_id activity = Some orig ->
  detach_from_activity self activity
  = ({| _ignored_words := _ignored_words self;
        _orig_handler_map := delete (obj_id activity) (_orig_handler_map self) |},
     {| obj_id := obj_id activity;
        _session := _session activity;
        _on_input_audio_transcription_completed := Present orig |}).
Proof. intros H. unfold detach_from_activity. rewrite H. reflexivity. Qed.

Lemma detach_unattached self activity :
  _orig_handler_map self !! obj_id activity = None ->
  detach_from_activity self activity = (self, activity).
Proof. intros H. unfold detach_from_activity. rewrite H. reflexivity. Qed.

(** [wrapper] looks at the filter through its word list and at the
    activity through its session only *)
Lemma wrapper_reads self1 self2 activity1 activity2 sw orig ev :
  _ignored_words self1 = _ignored_words self2 ->
  _session activity1 = _session activity2 ->
  wrapper self1 activity1 sw orig ev = wrapper self2 activity2 sw orig ev.
Proof.
  intros Hw Hs.
  unfold wrapper, wrapper_try, gate, notify, agent_speaking, all_fillers,
    ignored_set.
  rewrite Hw, Hs. reflexivity.
Qed.

End AttachFacts.

Import AttachFacts.

(** X9. Detaching an activity the filter is not attached to changes
    nothing, and detaching twice is the same as detaching once. *)
Theorem detach_is_idempotent self activity :
  (_orig_handler_map self !! obj_id activity = None ->
   detach_from_activity self activity = (self, activity))
  /\ detach_from_activity (fst (detach_from_activity self activity))
                          (snd (detach_from_activity self activity))
     = detach_from_activity self activity.
Proof.
  split; [apply detach_unattached|].
  unfold detach_from_activity at 2 3 4.
  destruct (_orig_handler_map self !! obj_id activity) as [orig|] eqn:E.
  - apply detach_unattached. simpl. apply lookup_delete_eq.
  - apply detach_unattached. exact E.
Qed.

Lemma detach_is_idempotent_witness :
  detach_from_activity default_filter (FakeActivity (FakeSession "speaking"))
  = (default_filter, FakeActivity (FakeSession "speaking")).
Proof.
  apply (proj1 (detach_is_idempotent default_filter
                  (FakeActivity (FakeSession "speaking")))).
  reflexivity.
Defined.

(** X11. A filter attached to two activities keeps them apart: after
    attaching to [a] and then to [b], detaching [a] restores [a] and
    leaves [b] attached with its original handler on record, and
    detaching [b] afterwards restores [b] and the filter as it was at
    the start. *)
Theorem two_activities_are_independent self a b oa ob :
  obj_id a <> obj_id b ->
  _orig_handler_map self !! obj_id a = None ->
  _orig_handler_map self !! obj_id b = None ->
  _on_input_audio_transcription_completed a = Present oa ->
  _on_input_audio_transcription_completed b = Present ob ->
  exists s1 a1 s2 b1 s3,
    attach_to_activity self a = inr (s1, a1)
    /\ attach_to_activity s1 b = inr (s2, b1)
    /\ _on_input_audio_transcription_completed b1
       = Present (Wrapper (obj_id b) ob)
    /\ detach_from_activity s2 a1 = (s3, a)
    /\ _orig_handler_map s3 !! obj_id b = Some ob
    /\ detach_from_activity s3 b1 = (self, b).
Proof.
  intros Hne Ha Hb Hoa Hob.
  exists {| _ignored_words := _ignored_words self;
            _orig_handler_map :=
              <[obj_id a := oa]> (_orig_handler_map self) |},
         {| obj_id := obj_id a; _session := _session a;
            _on_input_audio_transcription_completed :=
              Present (Wrapper (obj_id a) oa) |},
         {| _ignored_words := _ignored_words self;
            _orig_handler_map :=
              <[obj_id b := ob]>
                (<[obj_id a := oa]> (_orig_handler_map self)) |},
         {| obj_id := obj_id b; _session := _session b;
            _on_input_audio_transcription_completed :=
              Present (Wrapper (obj_id b) ob) |},
         {| _ignored_words := _ignored_words self;
            _orig_handler_map :=
              <[obj_id b := ob]> (_orig_handler_map self) |}.
  split; [apply (attach_fresh _ _ _ Ha Hoa)|].
  split.
  { unfold attach_to_activity. cbn [_orig_handler_map _ignored_words].
    rewrite lookup_insert_ne, Hb, Hob by auto. reflexivity. }
  split; [reflexivity|].
  split.
  { unfold detach_from_activity.
    cbn [_orig_handler_map _ignored_words obj_id _session].
    rewrite lookup_insert_ne, lookup_insert_eq by auto.
    rewrite (delete_insert_ne _ (obj_id a)) by auto.
    rewrite delete_insert_eq, (delete_id _ _ Ha), <- Hoa.
    destruct a; reflexivity. }
  split; [cbn [_orig_handler_map]; apply lookup_insert_eq|].
  unfold detach_from_activity.
  cbn [_orig_handler_map _ignored_words obj_id _session].
  rewrite lookup_insert_eq, delete_insert_eq, (delete_id _ _ Hb), <- Hob.
  destruct self, b; reflexivity.
Qed.

Lemma two_activities_are_independent_witness :
  let a := FakeActivity (FakeSession "speaking") in
  let b := {| obj_id := 2; _session := Present (Some (FakeSession "listening"));
              _on_input_audio_transcription_completed :=
                Present (HostMethod 7) |} in
  exists s1 a1 s2 b1 s3,
    attach_to_activity default_filter a = inr (s1, a1)
    /\ attach_to_activity s1 b = inr (s2, b1)
    /\ _on_input_audio_transcription_completed b1
       = Present (Wrapper 2 (HostMethod 7))
    /\ detach_from_activity s2 a1 = (s3, a)
    /\ _orig_handler_map s3 !! 2 = Some (HostMethod 7)
    /\ detach_from_activity s3 b1 = (default_filter, b).
Proof.
  intros a b.
  apply (two_activities_are_independent default_filter a b
           (HostMethod 0) (HostMethod 7)).
  - discriminate.
  - reflexivity.
  - reflexivity.
  - reflexivity.
  - reflexivity.
Defined.

(** a call of the handler of an attached activity is a call of
    [wrapper] *)
Lemma deliver_installed self activity sw ev aid orig :
  _on_input_audio_transcription_completed activity
  = Present (Wrapper aid orig) ->
  deliver self activity sw ev = wrapper self activity sw orig ev.
Proof.
  intros H. unfold deliver. rewrite H.
  unfold getattr, mbind, Py_bind, mret, Py_ret.
  destruct (wrapper self activity sw orig ev) as [t r]. reflexivity.
Qed.

(* ===================================================================== *)
(** * Further properties of the vocabulary                                *)
(* ===================================================================== *)

Module IngestFacts.
Import PyStr PyStrFacts NormFacts VocabularyFacts.

Lemma strip_lower_fixed w :
  strip (strip_lower w) = strip_lower w
  /\ lower (strip_lower w) = strip_lower w.
Proof.
  unfold strip_lower. split; [|apply lower_idem].
  rewrite <- lower_strip, strip_idem. reflexivity.
Qed.

Lemma ingest_fixed ws :
  Forall (fun w => strip w = w /\ lower w = w) (ingest ws).
Proof.
  unfold ingest. apply Forall_map, Forall_forall. intros w _.
  apply strip_lower_fixed.
Qed.

Lemma ingest_of_fixed l :
  Forall (fun w => strip w = w /\ lower w = w) l ->
  ingest l = List.filter truthy l.
Proof.
  unfold ingest. induction 1 as [|w l [Hs Hl] _ IH]; [reflexivity|].
  simpl. destruct (truthy w); simpl; [|exact IH].
  unfold strip_lower at 1. rewrite Hs, Hl, IH. reflexivity.
Qed.

End IngestFacts.

Import IngestFacts.

(** X13. After [set_ignored_words] every stored word is free of
    surrounding whitespace and in lower case. Giving a filter its own
    word list back keeps the list, but for the empty strings in it. *)
Theorem stored_words_are_trimmed_lowercase self ws :
  Forall (fun w => PyStr.strip w = w /\ PyStr.lower w = w)
         (_ignored_words (set_ignored_words self ws))
  /\ _ignored_words
       (set_ignored_words self (_ignored_words (set_ignored_words self ws)))
     = List.filter PyStr.truthy (_ignored_words (set_ignored_words self ws)).
Proof.
  split; [apply ingest_fixed|].
  apply ingest_of_fixed, ingest_fixed.
Qed.

(* ===================================================================== *)
(** * The script [run_transcription_filler_filter.py]                     *)
(* ===================================================================== *)

Module ScriptFacts.
Import run_transcription_filler_filter.

Lemma loop_spec tests failed :
  loop tests failed
  = (map line_of tests, failed || negb (forallb passed tests)).
Proof.
  revert failed. induction tests as [|[name r] rest IH]; intros failed.
  - simpl. rewrite orb_false_r. reflexivity.
  - cbn [loop]. destruct r; rewrite IH; cbn; try reflexivity;
      rewrite ?orb_true_r; reflexivity.
Qed.

End ScriptFacts.

(** X16. The script [run_transcription_filler_filter.py] calls every
    test function and prints one line for each, in order, whatever the
    earlier ones did; it ends with ALL TESTS PASSED when every function
    returned, and with [SystemExit(1)] as soon as one of them failed an
    assertion or raised. *)
Theorem script_runs_every_test tests :
  run_transcription_filler_filter.script tests
  = if forallb run_transcription_filler_filter.passed tests
    then ((map run_transcription_filler_filter.line_of tests
           ++ [run_transcription_filler_filter.PrintAllPassed])%list, None)
    else (map run_transcription_filler_filter.line_of tests, Some 1%Z).
Proof.
  unfold run_transcription_filler_filter.script.
  rewrite ScriptFacts.loop_spec. simpl.
  destruct (forallb run_transcription_filler_filter.passed tests); reflexivity.
Qed.

(* ===================================================================== *)
(** * The test runner [run_tests_by_prefix.py]                            *)
(* ===================================================================== *)

Module RunnerFacts.
Import run_tests_by_prefix.









End RunnerFacts.





(* ===================================================================== *)
(** * The interactive demo                                                *)
(* ===================================================================== *)

Module DemoFacts.
Import PyStr PyStrFacts WrapperFacts OutcomeFacts demo_filler_filter.

Lemma speaking_view d :
  agent_speaking (activity_view d) = String.eqb (session_state d) "speaking".
Proof. reflexivity. Qed.

(** the wrapper on a typed transcript *)
Lemma wrapper_demo d orig text :
  truthy (strip text) = true ->
  wrapper (filt d) (activity_view d) no_split_words orig (DemoTranscript text)
  = if String.eqb (session_state d) "speaking"
       && all_fillers (filt d) (tokens_of no_split_words text)
    then ([LogInfo text; SessionEmit "agent_false_interruption"],
          inr Suppress)
    else ([CallOrig orig (DemoTranscript text)], inr Forward).
Proof.
  intros Ht. destruct (String.eqb (session_state d) "speaking") eqn:Hs.
  - rewrite (wrapper_speaking _ (activity_view d) _ _ (DemoTranscript text)
               text eq_refl); [|rewrite speaking_view; exact Hs].
    rewrite Ht, <- andb_assoc, all_fillers_absorbs_words. cbn [andb].
    destruct (all_fillers _ _); reflexivity.
  - rewrite (wrapper_not_speaking _ (activity_view d) _ _
               (DemoTranscript text)); [reflexivity|].
    rewrite speaking_view. exact Hs.
Qed.

(** the objects after a typed transcript went through the handler *)
Lemma call_handler_attached d aid orig text :
  activity_handler d = Present (Wrapper aid orig) ->
  truthy (strip text) = true ->
  call_handler d text
  = inr {| session_state := session_state d;
           session_events :=
             (session_events d
              ++ if String.eqb (session_state d) "speaking"
                    && all_fillers (filt d) (tokens_of no_split_words text)
                 then ["agent_false_interruption"] else [])%list;
           activity_forwarded :=
             (activity_forwarded d
              ++ if String.eqb (session_state d) "speaking"
                    && all_fillers (filt d) (tokens_of no_split_words text)
                 then [] else [text])%list;
           activity_handler := activity_handler d;
           filt := filt d |}.
Proof.
  intros Hh Ht. unfold call_handler.
  rewrite (deliver_installed (filt d) (activity_view d) no_split_words
             (DemoTranscript text) aid orig Hh).
  rewrite (wrapper_demo d orig text Ht).
  destruct (_ && _); reflexivity.
Qed.

Lemma strip_truthy_line line :
  truthy (strip line) = true -> truthy (strip (strip line)) = true.
Proof. rewrite strip_idem. auto. Qed.

(** what one turn keeps *)
Lemma step_keeps colorama d line :
  idle d -> attached d ->
  idle (snd (fst (step colorama d line)))
  /\ attached (snd (fst (step colorama d line)))
  /\ (strip line <> "speak" ->
      session_state d = "listening" ->
      session_state (snd (fst (step colorama d line))) = "listening"
      /\ Forall no_event_line (fst (fst (step colorama d line)))).
Proof.
  intros [Hf He] [Hh Hm]. unfold step.
  assert (Hd : idle d) by (split; assumption).
  assert (Ha : attached d) by (split; assumption).
  destruct (truthy (strip line)) eqn:Ht; cbn [negb];
    [|split; [exact Hd|split; [exact Ha|]]; intros _ Hl; split;
      [exact Hl|constructor]].
  destruct (String.eqb (strip line) "quit");
    [split; [exact Hd|split; [exact Ha|]]; intros _ Hl; split;
      [exact Hl|constructor]|].
  destruct (String.eqb (strip line) "help").
  { split; [exact Hd|split; [exact Ha|]]. intros _ Hl. split; [exact Hl|].
    repeat constructor; discriminate. }
  destruct (String.eqb (strip line) "speak") eqn:Esp.
  { apply String.eqb_eq in Esp. cbn.
    split; [split; reflexivity|split; [exact Ha|]]. intros Hne. contradiction. }
  destruct (String.eqb (strip line) "listen").
  { cbn. rewrite Hf, He.
    split; [split; reflexivity|split; [exact Ha|]]. intros _ _.
    split; [reflexivity|]. repeat constructor; discriminate. }
  destruct (String.eqb (strip line) "words").
  { cbn. split; [exact Hd|split; [exact Ha|]]. intros _ Hl. split; [exact Hl|].
    constructor; [split; discriminate|].
    apply Forall_map, Forall_forall. intros w _. split; discriminate. }
  destruct (String.prefix "set " (strip line)).
  { cbn. split; [exact Hd|split; [exact Ha|]]. intros _ Hl. split; [exact Hl|].
    repeat constructor; discriminate. }
  rewrite (call_handler_attached d 1 (HostMethod 0) (strip line) Hh
             (strip_truthy_line line Ht)).
  rewrite Hf, He. cbn.
  split; [split; reflexivity|split; [exact Ha|]].
  intros _ Hl. rewrite Hl. cbn. split; [reflexivity|].
  repeat constructor; discriminate.
Qed.

End DemoFacts.

Module DemoLoopFacts.
Import PyStr demo_filler_filter DemoFacts.

Lemma turns_keeps colorama lines : forall d,
  idle d -> attached d ->
  idle (snd (fst (turns colorama d lines)))
  /\ attached (snd (fst (turns colorama d lines)))
  /\ (Forall (fun l => strip l <> "speak") lines ->
      session_state d = "listening" ->
      session_state (snd (fst (turns colorama d lines))) = "listening"
      /\ Forall no_event_line (fst (fst (turns colorama d lines)))).
Proof.
  induction lines as [|line rest IH]; intros d Hi Ha.
  - cbn. split; [exact Hi|split; [exact Ha|]]. intros _ Hl.
    split; [exact Hl|constructor].
  - cbn [turns].
    destruct (step_keeps colorama d line Hi Ha) as (Hi' & Ha' & Hs').
    destruct (step colorama d line) as [[out d'] continue].
    cbn [fst snd] in *. destruct continue.
    + destruct (IH d' Hi' Ha') as (Hi'' & Ha'' & Hs'').
      destruct (turns colorama d' rest) as [[out' d''] quit].
      cbn [fst snd] in *.
      split; [exact Hi''|split; [exact Ha''|]]. intros Hall Hl.
      apply Forall_cons in Hall as [Hline Hrest].
      destruct (Hs' Hline Hl) as [Hl' Ho].
      destruct (Hs'' Hrest Hl') as [Hl'' Ho'].
      split; [exact Hl''|apply Forall_app; split; assumption].
    + cbn [fst snd].
      split; [exact Hi'|split; [exact Ha'|]]. intros Hall Hl.
      apply Forall_cons in Hall as [Hline _]. apply (Hs' Hline Hl).
Qed.

End DemoLoopFacts.

Import DemoFacts DemoLoopFacts.



(** X22. A turn of the demo on a line that is no command shows the
    agent state and then exactly one of two things: the event
    "agent_false_interruption", when the agent is speaking and every
    whitespace token of the trimmed line is in the normalized set, or
    else the trimmed line as a forwarded transcript. The objects are
    left as they were. *)
Theorem demo_transcript_turn colorama d line :
  demo_filler_filter.idle d ->
  demo_filler_filter.attached d ->
  PyStr.truthy (PyStr.strip line) = true ->
  PyStr.strip line ∉ ["quit"; "help"; "speak"; "listen"; "words"] ->
  String.prefix "set " (PyStr.strip line) = false ->
  demo_filler_filter.step colorama d line
  = (demo_filler_filter.PrintAgentState
       (demo_filler_filter.format_state colorama
          (demo_filler_filter.session_state d))
     :: (if String.eqb (demo_filler_filter.session_state d) "speaking"
            && all_fillers (demo_filler_filter.filt d)
                 (tokens_of no_split_words (PyStr.strip line))
         then [demo_filler_filter.PrintEventsHeader;
               demo_filler_filter.PrintEvent "agent_false_interruption"]
         else [demo_filler_filter.PrintForwardedHeader;
               demo_filler_filter.PrintForwarded (PyStr.strip line)]),
     d, true).
Proof.
  intros [Hf He] [Hh Hm] Ht Hcmd Hset. unfold demo_filler_filter.step.
  rewrite Ht, Hset. cbn [negb].
  assert (Hne : forall c,
            c ∈ ["quit"; "help"; "speak"; "listen"; "words"] ->
            String.eqb (PyStr.strip line) c = false).
  { intros c Hc. apply String.eqb_neq. intros E. apply Hcmd. rewrite E.
    exact Hc. }
  rewrite !Hne by (apply list_elem_of_In; simpl; tauto).
  rewrite (call_handler_attached d 1 (HostMethod 0) (PyStr.strip line) Hh
             (strip_truthy_line line Ht)).
  rewrite Hf, He. destruct d; cbn in *. subst.
  destruct (_ && _); reflexivity.
Qed.

Lemma demo_transcript_turn_witness :
  let d :=
    {| demo_filler_filter.session_state := "speaking";
       demo_filler_filter.session_events := [];
       demo_filler_filter.activity_forwarded := [];
       demo_filler_filter.activity_handler :=
         Present (Wrapper 1 (HostMethod 0));
       demo_filler_filter.filt :=
         {| _ignored_words := ["uh"; "umm"];
            _orig_handler_map := {[ 1 := HostMethod 0 ]} |} |} in
  demo_filler_filter.step None d "  Umm, uh  "
  = ([demo_filler_filter.PrintAgentState "speaking";
      demo_filler_filter.PrintEventsHeader;
      demo_filler_filter.PrintEvent "agent_false_interruption"], d, true)
  /\ demo_filler_filter.step None d "umm stop"
     = ([demo_filler_filter.PrintAgentState "speaking";
         demo_filler_filter.PrintForwardedHeader;
         demo_filler_filter.PrintForwarded "umm stop"], d, true).
Proof.
  intros d. split.
  - refine (eq_trans (demo_transcript_turn None d "  Umm, uh  " _ _ _ _ _) _).
    + split; reflexivity.
    + split; reflexivity.
    + reflexivity.
    + apply (bool_decide_unpack _). vm_compute. exact I.
    + reflexivity.
    + vm_compute. reflexivity.
  - refine (eq_trans (demo_transcript_turn None d "umm stop" _ _ _ _ _) _).
    + split; reflexivity.
    + split; reflexivity.
    + reflexivity.
    + apply (bool_decide_unpack _). vm_compute. exact I.
    + reflexivity.
    + vm_compute. reflexivity.
Defined.

(** X23. Only the command speak makes the agent of the demo speak: from
    a listening agent with nothing waiting and the filter attached, as
    long as no line typed is that command, no turn reports an emitted
    event, whatever the lines and the vocabulary are, and the agent is
    still listening after the last turn. *)
Theorem demo_forwards_until_speak colorama d lines :
  demo_filler_filter.idle d ->
  demo_filler_filter.attached d ->
  demo_filler_filter.session_state d = "listening" ->
  Forall (fun l => PyStr.strip l <> "speak") lines ->
  demo_filler_filter.session_state
    (snd (fst (demo_filler_filter.turns colorama d lines))) = "listening"
  /\ Forall demo_filler_filter.no_event_line
       (fst (fst (demo_filler_filter.turns colorama d lines))).
Proof.
  intros Hi Ha Hl Hall.
  destruct (turns_keeps colorama lines d Hi Ha) as (_ & _ & H).
  exact (H Hall Hl).
Qed.

Lemma demo_forwards_until_speak_witness :
  let d :=
    {| demo_filler_filter.session_state := "listening";
       demo_filler_filter.session_events := [];
       demo_filler_filter.activity_forwarded := [];
       demo_filler_filter.activity_handler :=
         Present (Wrapper 1 (HostMethod 0));
       demo_filler_filter.filt :=
         {| _ignored_words := ["uh"; "umm"];
            _orig_handler_map := {[ 1 := HostMethod 0 ]} |} |} in
  let lines := ["uh"; "words"; " listen "; "umm"; "quit"] in
  demo_filler_filter.session_state
    (snd (fst (demo_filler_filter.turns None d lines))) = "listening"
  /\ Forall demo_filler_filter.no_event_line
       (fst (fst (demo_filler_filter.turns None d lines))).
Proof.
  intros d lines.
  apply (demo_forwards_until_speak None d lines).
  - split; reflexivity.
  - split; reflexivity.
  - reflexivity.
  - repeat (apply Forall_cons_2; [vm_compute; discriminate|]).
    apply Forall_nil_2.
Defined.
